(** * rdna: the Python layer of the RDNA stack

    A shallow embedding of the package module [rdna]
    (python/__init__.py), of [get_version] of setup.py, of the
    demonstrations of examples/basic_usage.py and of the Python
    built-ins they call, followed by the properties of the device and
    memory interface, of the version and of the demonstrations that
    hold of them.

    Conventions of the embedding.
    - A Python [str] is a Rocq [string]; a character stands for the code
      point of the same number (code points below 256).
    - A Python [int] is a [Z]; [None] as a returned value is [tt].
    - A call that may raise returns a [result]; a function of the module
      that runs in the interpreter state is a computation [M A], a state
      transformer that returns a [result].
    - Instances of the two context-manager classes live in an object
      store and are passed by reference, as in Python. *)

From Stdlib Require Import ZArith Ascii String List Lia.
From Stdlib Require Import DecimalString DecimalPos DecimalFacts.
From stdpp Require Import base option gmap strings list.

Local Open Scope string_scope.
Local Open Scope nat_scope.

(** ** Exceptions and results *)

(** The exception classes that occur.  [KeyboardInterrupt] and
    [SystemExit] derive from [BaseException] only; the others derive
    from [Exception]. *)
Inductive exn_class : Type :=
  | ValueError
  | AttributeError
  | IndexError
  | NameError
  | ImportError
  | RuntimeError
  | OSError
  | UnicodeDecodeError
  | SystemError
  | KeyboardInterrupt
  | SystemExit.

Record exn : Type := mk_exn { exn_kind : exn_class; exn_msg : string }.

(** [isinstance(e, Exception)], the test of an [except Exception] clause. *)
Definition is_Exception (e : exn) : bool :=
  match exn_kind e with
  | KeyboardInterrupt | SystemExit => false
  | _ => true
  end.

Inductive result (A : Type) : Type :=
  | Ok (a : A)
  | Raise (e : exn).
Arguments Ok {A} a.
Arguments Raise {A} e.

Definition rbind {A B : Type} (r : result A) (k : A -> result B) : result B :=
  match r with
  | Ok a => k a
  | Raise e => Raise e
  end.

Declare Scope result_scope.
Delimit Scope result_scope with result.
Notation "x <~ r ;; k" := (rbind r (fun x => k))
  (at level 20, r at level 99, k at level 200) : result_scope.

(** ** Built-ins of Python used by the module *)
Module Py.

(** [s.startswith(prefix)] *)
Definition startswith (s prefix : string) : bool := String.prefix prefix s.

(** [sub in s] for strings: [sub] occurs in [s] as a substring. *)
Fixpoint str_contains (sub s : string) : bool :=
  String.prefix sub s ||
  match s with
  | EmptyString => false
  | String _ s' => str_contains sub s'
  end.

(** [s.split(sep)] for a separator [sep] of one character: the
    maximal pieces of [s] between the occurrences of [sep]; never the
    empty list. *)
Fixpoint split (sep : ascii) (s : string) : list string :=
  match s with
  | EmptyString => [EmptyString]
  | String c s' =>
      if Ascii.eqb c sep then EmptyString :: split sep s'
      else match split sep s' with
           | [] => [String c EmptyString]
           | piece :: pieces => String c piece :: pieces
           end
  end.

(** [l[i]] for a list and an index [i >= 0]. *)
Definition getitem {A : Type} (l : list A) (i : nat) : result A :=
  match l !! i with
  | Some x => Ok x
  | None => Raise (mk_exn IndexError "list index out of range")
  end.

(** White space that [int] skips at both ends of its argument: the
    code points below 256 with [str.isspace] that [int] accepts, that
    is tab, line feed, vertical tab, form feed, carriage return,
    space, U+0085 and U+00A0. *)
Definition is_space (c : ascii) : bool :=
  let n := nat_of_ascii c in
  ((9 <=? n) && (n <=? 13)) || (n =? 32) || (n =? 133) || (n =? 160).

Definition is_digit (c : ascii) : bool :=
  let n := nat_of_ascii c in (48 <=? n) && (n <=? 57).

Definition digit_value (c : ascii) : Z := Z.of_nat (nat_of_ascii c - 48).

Fixpoint lstrip (s : string) : string :=
  match s with
  | EmptyString => EmptyString
  | String c s' => if is_space c then lstrip s' else s
  end.

Definition str_rev (s : string) : string :=
  string_of_list_ascii (List.rev (list_ascii_of_string s)).

Definition rstrip (s : string) : string := str_rev (lstrip (str_rev s)).

Definition strip (s : string) : string := rstrip (lstrip s).

(** The digits of a decimal literal: decimal digits, single
    underscores allowed between two digits only.  [acc] is the value
    read so far, [after_digit] tells whether the last character read
    was a digit. *)
Fixpoint digits (s : string) (acc : Z) (after_digit : bool) : option Z :=
  match s with
  | EmptyString => if after_digit then Some acc else None
  | String c s' =>
      if is_digit c then digits s' (10 * acc + digit_value c)%Z true
      else if Ascii.eqb c "_"%char then
        (if after_digit then digits s' acc false else None)
      else None
  end.

(** An optional sign followed by the digits. *)
Definition signed_digits (s : string) : option Z :=
  match s with
  | String "+" s' => digits s' 0%Z false
  | String "-" s' => Z.opp <$> digits s' 0%Z false
  | _ => digits s 0%Z false
  end.

(** The number of digits CPython converts between [str] and [int]
    at most, unless configured otherwise ([sys.set_int_max_str_digits]). *)
Definition int_max_str_digits : nat := 4300.

(** The string without its sign. *)
Definition unsigned (s : string) : string :=
  match s with
  | String "+" s' => s'
  | String "-" s' => s'
  | _ => s
  end.

(** The number of digits in the run of digits and underscores [s]
    starts with, as [int] counts them before it looks at what follows
    the run; [None] when the run is empty or an underscore in it is
    misplaced, which [int] reports first. *)
Fixpoint run_digits (s : string) (after_digit : bool) : option nat :=
  match s with
  | EmptyString => if after_digit then Some 0 else None
  | String c s' =>
      if is_digit c then S <$> run_digits s' true
      else if Ascii.eqb c "_"%char then
        (if after_digit then run_digits s' false else None)
      else if after_digit then Some 0 else None
  end.

(** The decimal digits of a natural number. *)
Definition nat_digits (n : nat) : string :=
  NilEmpty.string_of_uint (Nat.to_uint n).

Definition too_many_digits (n : nat) : exn :=
  mk_exn ValueError
    ("Exceeds the limit (" +:+ nat_digits int_max_str_digits
     +:+ " digits) for integer string conversion: value has "
     +:+ nat_digits n
     +:+ " digits; use sys.set_int_max_str_digits() to increase the limit").

(** [int(s)] for a string [s], base 10: white space is skipped at both
    ends; a run of more than [int_max_str_digits] digits is refused;
    otherwise the string is a sign and digits, or an invalid literal.
    The message of the invalid literal is the one of CPython for a
    string that [repr] prints as itself between single quotes. *)
Definition int (s : string) : result Z :=
  let invalid :=
    mk_exn ValueError
      ("invalid literal for int() with base 10: '" +:+ s +:+ "'") in
  let parsed :=
    match signed_digits (strip s) with
    | Some n => Ok n
    | None => Raise invalid
    end in
  match run_digits (unsigned (strip s)) false with
  | Some n =>
      if int_max_str_digits <? n then Raise (too_many_digits n) else parsed
  | None => parsed
  end.

(** The characters that occur in the strings [int] accepts: white
    space, the signs, the decimal digits and the underscore. *)
Definition literal_char (c : ascii) : bool :=
  is_space c || is_digit c ||
  Ascii.eqb c "+" || Ascii.eqb c "-" || Ascii.eqb c "_".

End Py.

(** ** The package module *)
Module Rdna.

(** *** The interpreter state seen by the module *)

(** The extension module [rdna_py] is compiled from C++ and is not
    part of the Python sources.  What the module asks of it is taken
    as given: the outcome of [from .rdna_py import *], which raises
    [ImportError] when the extension is not built, the outcome of the
    probe [rdna_py.is_available()] and of [rdna_py.initialize()] at
    import time, each a value or an exception, and the number
    [rdna_py.device_count()] returns. *)
Record Native : Type := {
  rdna_py_import : result unit;
  rdna_py_is_available : result bool;
  rdna_py_initialize : result unit;
  rdna_py_device_count : Z
}.

(** Modelled from the spec: the statistics the caching allocator of
    the extension module keeps for a device (AllocatorStats), byte
    counts without sign.  The allocator is not part of the Python
    sources; no function of the Python layer reads or writes them. *)
Record AllocatorStats : Type := {
  allocatedBytes : N;
  cachedBytes : N;
  peakAllocatedBytes : N
}.

(** References to instances, and the instances of the two classes of
    the module: the class and the attribute dictionary. *)
Definition loc : Type := nat.

Inductive pyclass : Type :=
  | cls_device
  | cls_tf_device.

Record object : Type := {
  obj_class : pyclass;
  obj_dict : gmap string Z
}.

(** The state: the global [_available] of the module, the extension
    module, the statistics of its allocator by device index, and the
    object store. *)
Record State : Type := {
  _available : bool;
  native : Native;
  allocator : gmap Z AllocatorStats;
  heap : gmap loc object
}.

Definition set_heap (h : gmap loc object) (s : State) : State :=
  {| _available := _available s;
     native := native s;
     allocator := allocator s;
     heap := h |}.

(** *** Computations *)

Definition M (A : Type) : Type := State -> result A * State.

Definition ret {A : Type} (a : A) : M A := fun s => (Ok a, s).

Definition raise {A : Type} (e : exn) : M A := fun s => (Raise e, s).

Definition bind {A B : Type} (m : M A) (k : A -> M B) : M B :=
  fun s =>
    match m s with
    | (Ok a, s') => k a s'
    | (Raise e, s') => (Raise e, s')
    end.

Definition lift {A : Type} (r : result A) : M A := fun s => (r, s).

Declare Scope py_scope.
Delimit Scope py_scope with py.
Notation "x <- m ;; k" := (bind m (fun x => k))
  (at level 20, m at level 99, k at level 200) : py_scope.
Notation "m ;; k" := (bind m (fun _ => k))
  (at level 100, k at level 200, right associativity) : py_scope.

(** *** Attribute access on instances *)

Definition dangling : exn := mk_exn SystemError "dangling reference".

(** [c.__name__] *)
Definition class_name (c : pyclass) : string :=
  match c with
  | cls_device => "device"
  | cls_tf_device => "tf_device"
  end.

Definition no_attribute (c : pyclass) (name : string) : exn :=
  mk_exn AttributeError
    ("'" +:+ class_name c +:+ "' object has no attribute '" +:+ name +:+ "'").

(** [self.name] *)
Definition getattr (self : loc) (name : string) : M Z :=
  fun s =>
    match heap s !! self with
    | Some o =>
        match obj_dict o !! name with
        | Some v => (Ok v, s)
        | None => (Raise (no_attribute (obj_class o) name), s)
        end
    | None => (Raise dangling, s)
    end.

(** [self.name = v] *)
Definition setattr (self : loc) (name : string) (v : Z) : M unit :=
  fun s =>
    match heap s !! self with
    | Some o =>
        (Ok tt,
         set_heap (<[self := {| obj_class := obj_class o;
                                obj_dict := <[name := v]> (obj_dict o) |}]>
                     (heap s)) s)
    | None => (Raise dangling, s)
    end.

(** The call of a class: a new instance whose attributes are the ones
    [__init__] assigned; when [__init__] raises, no instance remains. *)
Definition new_object (c : pyclass)
    (init : gmap string Z -> result (gmap string Z)) : M loc :=
  fun s =>
    match init ∅ with
    | Ok d =>
        let l := fresh (dom (heap s)) in
        (Ok l, set_heap (<[l := {| obj_class := c; obj_dict := d |}]> (heap s)) s)
    | Raise e => (Raise e, s)
    end.

(** *** Import of the module *)

(** [_check_availability()], with the lines it prints.  At the time
    of the call [is_available] is still the function imported from
    [rdna_py]: the module defines its own below. *)
Definition _check_availability (n : Native) : result bool * list string :=
  let handler (e : exn) : result bool * list string :=
    if is_Exception e
    then (Ok false, ["Warning: Failed to initialize RDNA stack: " +:+ exn_msg e])
    else (Raise e, []) in
  match rdna_py_is_available n with
  | Ok true =>
      match rdna_py_initialize n with
      | Ok _ => (Ok true, [])
      | Raise e => handler e
      end
  | Ok false =>
      (Ok false,
       ["Warning: No RDNA devices found. RDNA stack will use CPU fallback."])
  | Raise e => handler e
  end.

(** The import of the module: [from .rdna_py import *], then
    [_available = _check_availability()]; the state the functions of
    the module then run in, and the lines printed.  An exception of
    either statement ends the import.  No instance exists yet; [stats]
    are the statistics of the allocator of the extension module. *)
Definition import_module (n : Native) (stats : gmap Z AllocatorStats)
    : result State * list string :=
  match rdna_py_import n with
  | Raise e => (Raise e, [])
  | Ok _ =>
      match _check_availability n with
      | (Ok b, out) =>
          (Ok {| _available := b; native := n; allocator := stats; heap := ∅ |},
           out)
      | (Raise e, out) => (Raise e, out)
      end
  end.

(** *** Functions of the module *)

Definition is_available : M bool := fun s => (Ok (_available s), s).

Definition device_count : M Z :=
  fun s => (Ok (rdna_py_device_count (native s)), s).

Definition current_device : M Z := ret 0%Z.

Definition set_device (device_id : Z) : M unit := ret tt.

Definition is_rdna_available : M bool := is_available.

Definition rdna_device_count : M Z := device_count.

Definition empty_cache : M unit := ret tt.

Definition memory_allocated (device_id : option Z) : M Z := ret 0%Z.

Definition max_memory_allocated (device_id : option Z) : M Z := ret 0%Z.

(** Values of a property dictionary. *)
Inductive pyval : Type :=
  | PyNone
  | PyBool (b : bool)
  | PyInt (n : Z)
  | PyStr (s : string).

Definition get_device_properties (device_id : option Z)
    : M (gmap string pyval) := ret ∅.

(** [config.set_visible_devices] and [config.get_memory_info] *)
Definition config_set_visible_devices (devices : list Z) : M unit := ret tt.

Definition config_get_memory_info (device_id : option Z)
    : M (gmap string pyval) := ret ∅.

(** Modelled from the spec: the cached-bytes, the allocated-bytes and
    the peak-allocated-bytes statistic of device [d], as the allocator
    of the extension module holds them ([rdna_py.memory_cached] is the
    query the tests call); [0] for a device without statistics. *)
Definition cached_bytes (d : Z) (s : State) : N :=
  match allocator s !! d with
  | Some st => cachedBytes st
  | None => 0%N
  end.

Definition allocated_bytes (d : Z) (s : State) : N :=
  match allocator s !! d with
  | Some st => allocatedBytes st
  | None => 0%N
  end.

Definition peak_bytes (d : Z) (s : State) : N :=
  match allocator s !! d with
  | Some st => peakAllocatedBytes st
  | None => 0%N
  end.

(** Modelled from the spec: the calls of the caching allocator of the
    extension module (4.3), as far as the statistics show them.
    [allocate(deviceIndex, sizeBytes)] comes with the way it was
    served: [None] when the driver refused and no cached block
    sufficed (OutOfMemory), [Some c] when it was served and [c] bytes
    left the cache for it ([0] when the driver gave the block).
    [free(block)] comes with the device and the size of the block,
    [emptyCache(deviceIndex?)] with the device, or with [None] for all
    devices. *)
Inductive allocator_call : Type :=
  | call_allocate (deviceIndex : Z) (sizeBytes : N) (served : option N)
  | call_free (deviceIndex : Z) (sizeBytes : N)
  | call_emptyCache (deviceIndex : option Z).

(** Modelled from the spec: the statistics of a device at the
    initialization of the allocator, and those of device [d] in a
    state. *)
Definition no_stats : AllocatorStats :=
  {| allocatedBytes := 0; cachedBytes := 0; peakAllocatedBytes := 0 |}.

Definition stats_of (d : Z) (s : State) : AllocatorStats :=
  default no_stats (allocator s !! d).

(** Modelled from the spec: the statistics once every free block went
    back to the driver, [cachedBytes] at [0] and the rest as it was. *)
Definition without_cache (st : AllocatorStats) : AllocatorStats :=
  {| allocatedBytes := allocatedBytes st;
     cachedBytes := 0;
     peakAllocatedBytes := peakAllocatedBytes st |}.

Definition set_stats (d : Z) (st : AllocatorStats) (s : State) : State :=
  {| _available := _available s;
     native := native s;
     allocator := <[d := st]> (allocator s);
     heap := heap s |}.

(** Modelled from the spec: the effect of a call on the statistics.
    An allocation of size [0] fails (InvalidArgument) and a refused one
    fails (OutOfMemory): nothing changes.  An allocation that is
    served adds its size to [allocatedBytes] and sets
    [peakAllocatedBytes] to the maximum of its value and of the new
    [allocatedBytes]; the bytes it reuses leave [cachedBytes].  [free]
    takes the size of the block from [allocatedBytes] and adds it to
    [cachedBytes].  [emptyCache] sets [cachedBytes] of the devices it
    is called for to [0].  The counts are natural numbers; the bound of
    64 bits on sizes plays no part in what is proved of them. *)
Definition allocator_exec (op : allocator_call) (s : State) : State :=
  match op with
  | call_allocate d size served =>
      match served with
      | Some reused =>
          if (size =? 0)%N then s
          else
            let st := stats_of d s in
            let allocated := (allocatedBytes st + size)%N in
            set_stats d
              {| allocatedBytes := allocated;
                 cachedBytes := (cachedBytes st - reused)%N;
                 peakAllocatedBytes := N.max (peakAllocatedBytes st) allocated |}
              s
      | None => s
      end
  | call_free d size =>
      let st := stats_of d s in
      set_stats d
        {| allocatedBytes := (allocatedBytes st - size)%N;
           cachedBytes := (cachedBytes st + size)%N;
           peakAllocatedBytes := peakAllocatedBytes st |}
        s
  | call_emptyCache (Some d) => set_stats d (without_cache (stats_of d s)) s
  | call_emptyCache None =>
      {| _available := _available s;
         native := native s;
         allocator := without_cache <$> allocator s;
         heap := heap s |}
  end.

(** *** class device *)

Local Open Scope py_scope.

Definition device__init__ (self : gmap string Z) (device_str : string)
    : result (gmap string Z) :=
  if Py.startswith device_str "rdna" then
    if Py.str_contains ":" device_str then
      (part <~ Py.getitem (Py.split ":"%char device_str) 1 ;;
       n <~ Py.int part ;;
       Ok (<["device_id" := n]> self))%result
    else Ok (<["device_id" := 0%Z]> self)
  else Raise (mk_exn ValueError ("Unsupported device: " +:+ device_str)).

(** The call [device(device_str)]. *)
Definition device (device_str : string) : M loc :=
  new_object cls_device (fun self => device__init__ self device_str).

(** The methods [__enter__] and [__exit__] call [current_device()]
    and [set_device(...)]: the functions the module binds to these two
    names when the method runs.  The methods are given over the two
    functions; [enter_of] and [exit_of] below give them the ones the
    module defines. *)
Definition device__enter__ (current_device : M Z) (set_device : Z -> M unit)
    (self : loc) : M loc :=
  p <- current_device ;;
  setattr self "prev_device" p ;;
  d <- getattr self "device_id" ;;
  set_device d ;;
  ret self.

(** [__exit__(self, *args)]: the arguments are not used; the result is
    [None]. *)
Definition device__exit__ (set_device : Z -> M unit) (self : loc) : M unit :=
  p <- getattr self "prev_device" ;;
  set_device p ;;
  ret tt.

(** *** class tf_device *)

Definition tf_device__init__ (self : gmap string Z) (device_str : string)
    : result (gmap string Z) :=
  if Py.startswith device_str "/device:RDNA" then
    let parts := Py.split ":"%char device_str in
    if 2 <? length parts then
      (part <~ Py.getitem parts 2 ;;
       n <~ Py.int part ;;
       Ok (<["device_id" := n]> self))%result
    else Ok (<["device_id" := 0%Z]> self)
  else Raise (mk_exn ValueError ("Unsupported device: " +:+ device_str)).

(** The call [tf_device(device_str)]. *)
Definition tf_device (device_str : string) : M loc :=
  new_object cls_tf_device (fun self => tf_device__init__ self device_str).

Definition tf_device__enter__ (current_device : M Z) (set_device : Z -> M unit)
    (self : loc) : M loc :=
  p <- current_device ;;
  setattr self "prev_device" p ;;
  d <- getattr self "device_id" ;;
  set_device d ;;
  ret self.

Definition tf_device__exit__ (set_device : Z -> M unit) (self : loc) : M unit :=
  p <- getattr self "prev_device" ;;
  set_device p ;;
  ret tt.

(** *** The with statement *)

(** [type(self)] *)
Definition class_of (self : loc) : M pyclass :=
  fun s =>
    match heap s !! self with
    | Some o => (Ok (obj_class o), s)
    | None => (Raise dangling, s)
    end.

(** The methods of the class [c], over the functions they call. *)
Definition enter_calling (current_device : M Z) (set_device : Z -> M unit)
    (c : pyclass) : loc -> M loc :=
  match c with
  | cls_device => device__enter__ current_device set_device
  | cls_tf_device => tf_device__enter__ current_device set_device
  end.

Definition exit_calling (set_device : Z -> M unit) (c : pyclass)
    : loc -> M unit :=
  match c with
  | cls_device => device__exit__ set_device
  | cls_tf_device => tf_device__exit__ set_device
  end.

(** The methods as the module has them: they call the functions
    [current_device] and [set_device] it defines. *)
Definition enter_of (c : pyclass) : loc -> M loc :=
  enter_calling current_device set_device c.

Definition exit_of (c : pyclass) : loc -> M unit :=
  exit_calling set_device c.

(** [with mgr as v: body], for the methods [enter] and [exit] of the
    classes.  The two methods are looked up on the class of [mgr]
    first; [__enter__] runs, then the body; [__exit__] runs when the
    body returns and when it raises.  The [__exit__] of both classes
    returns [None], which is false: the exception of the body is raised
    again.  An exception of [__exit__] itself replaces it. *)
Definition with_using {A : Type} (enter : pyclass -> loc -> M loc)
    (exit : pyclass -> loc -> M unit) (mgr : loc) (body : loc -> M A) : M A :=
  fun s =>
    match class_of mgr s with
    | (Raise e, s0) => (Raise e, s0)
    | (Ok c, s0) =>
        match enter c mgr s0 with
        | (Raise e, s1) => (Raise e, s1)
        | (Ok v, s1) =>
            match body v s1 with
            | (Ok a, s2) =>
                match exit c mgr s2 with
                | (Ok _, s3) => (Ok a, s3)
                | (Raise e', s3) => (Raise e', s3)
                end
            | (Raise e, s2) =>
                match exit c mgr s2 with
                | (Ok _, s3) => (Raise e, s3)
                | (Raise e', s3) => (Raise e', s3)
                end
            end
        end
    end.

(** The [with] statement in the module. *)
Definition with_stmt {A : Type} (mgr : loc) (body : loc -> M A) : M A :=
  with_using enter_of exit_of mgr body.

(** [__enter__] and [__exit__] called on an instance. *)
Definition ctx_enter (self : loc) : M loc :=
  c <- class_of self ;; enter_of c self.

Definition ctx_exit (self : loc) : M unit :=
  c <- class_of self ;; exit_of c self.

(** *** Sequences of calls *)

(** The calls of the device interface a client makes one after the
    other. *)
Inductive call : Type :=
  | call_set_device (device_id : Z)
  | call_device (device_str : string)
  | call_tf_device (device_str : string)
  | call_enter (self : loc)
  | call_exit (self : loc).

Definition run_call (c : call) : M unit :=
  match c with
  | call_set_device i => set_device i
  | call_device str => (device str ;; ret tt)
  | call_tf_device str => (tf_device str ;; ret tt)
  | call_enter self => (ctx_enter self ;; ret tt)
  | call_exit self => ctx_exit self
  end.

(** The state after the calls [cs]; a call that raises leaves the
    state it reached, and the client goes on. *)
Fixpoint run_calls (cs : list call) (s : State) : State :=
  match cs with
  | [] => s
  | c :: cs' => run_calls cs' (snd (run_call c s))
  end.

(** The state after the calls [ops] of the allocator of the extension
    module, whose effect [exec] on the state is taken as given. *)
Definition run_allocator (exec : allocator_call -> State -> State)
    (ops : list allocator_call) (s : State) : State :=
  fold_left (fun s' op => exec op s') ops s.

(** *** Device identifiers *)

(** The call of the class [c]. *)
Definition construct (c : pyclass) : string -> M loc :=
  match c with
  | cls_device => device
  | cls_tf_device => tf_device
  end.

(** The prefix [__init__] asks for, and the piece of the identifier it
    hands to [int] when there is one: the second piece between colons
    for [device], the third for [tf_device]. *)
Definition class_prefix (c : pyclass) : string :=
  match c with
  | cls_device => "rdna"
  | cls_tf_device => "/device:RDNA"
  end.

Definition index_position (c : pyclass) : nat :=
  match c with
  | cls_device => 1
  | cls_tf_device => 2
  end.

Definition index_part (c : pyclass) (device_str : string) : option string :=
  Py.split ":"%char device_str !! index_position c.

(** A malformed identifier: the prefix is wrong, or the piece at the
    index position is not an integer for [int]. *)
Inductive malformed (c : pyclass) (device_str : string) : Prop :=
  | wrong_prefix :
      Py.startswith device_str (class_prefix c) = false ->
      malformed c device_str
  | non_integer_index (part : string) (e : exn) :
      index_part c device_str = Some part ->
      Py.int part = Raise e ->
      malformed c device_str.

(** [s] without [p] in front, when it starts with [p]. *)
Fixpoint drop_prefix (p s : string) : option string :=
  match p, s with
  | EmptyString, _ => Some s
  | String a p', String b s' =>
      if Ascii.eqb a b then drop_prefix p' s' else None
  | String _ _, EmptyString => None
  end.

(** The malformed identifiers in the words of the specification, to
    compare with [malformed]: the prefix is wrong, or the suffix, what
    follows the prefix and its colon, is not an integer. *)
Definition index_suffix (c : pyclass) (device_str : string) : option string :=
  drop_prefix (class_prefix c +:+ ":") device_str.

Inductive spec_malformed (c : pyclass) (device_str : string) : Prop :=
  | spec_wrong_prefix :
      Py.startswith device_str (class_prefix c) = false ->
      spec_malformed c device_str
  | spec_non_integer_suffix (suffix : string) (e : exn) :
      index_suffix c device_str = Some suffix ->
      Py.int suffix = Raise e ->
      spec_malformed c device_str.

(** An identifier with the prefix and without index. *)
Definition omits_index (c : pyclass) (device_str : string) : Prop :=
  Py.startswith device_str (class_prefix c) = true /\
  match c with
  | cls_device => Py.str_contains ":" device_str = false
  | cls_tf_device => length (Py.split ":"%char device_str) < 3
  end.

(** *** States of the examples *)

(** An extension module that found [count] devices and initializes,
    and the state after the import of the module with it. *)
Definition native_with (count : Z) : Native :=
  {| rdna_py_import := Ok tt;
     rdna_py_is_available := Ok (0 <? count)%Z;
     rdna_py_initialize := Ok tt;
     rdna_py_device_count := count |}.

Definition state_with (count : Z) (stats : gmap Z AllocatorStats) : State :=
  {| _available := (0 <? count)%Z;
     native := native_with count;
     allocator := stats;
     heap := ∅ |}.

(** An extension module that finds one device and whose
    initialization raises. *)
Definition native_init_fails : Native :=
  {| rdna_py_import := Ok tt;
     rdna_py_is_available := Ok true;
     rdna_py_initialize := Raise (mk_exn RuntimeError "HIP runtime not found");
     rdna_py_device_count := 1 |}.

(** No extension module: [from .rdna_py import *] raises
    [ModuleNotFoundError], a subclass of [ImportError]; the package is
    [rdna], as the tests and the examples import it. *)
Definition native_absent : Native :=
  {| rdna_py_import := Raise (mk_exn ImportError "No module named 'rdna.rdna_py'");
     rdna_py_is_available := Ok false;
     rdna_py_initialize := Ok tt;
     rdna_py_device_count := 0 |}.

End Rdna.

(** ** More built-ins of Python, used by setup.py and by the examples *)
Module PyText.

(** [c.isspace()] for a character: the white space [str.strip()] and
    [str.split()] remove, among the code points below 256. *)
Definition isspace (c : ascii) : bool :=
  let n := nat_of_ascii c in
  ((9 <=? n) && (n <=? 13)) || ((28 <=? n) && (n <=? 32)) ||
  (n =? 133) || (n =? 160).

(** [c in chars] for a character. *)
Fixpoint char_in (chars : string) (c : ascii) : bool :=
  match chars with
  | EmptyString => false
  | String a chars' => Ascii.eqb c a || char_in chars' c
  end.

(** The string without its longest prefix, suffix, of characters that
    satisfy [drop]. *)
Fixpoint lstrip_with (drop : ascii -> bool) (s : string) : string :=
  match s with
  | EmptyString => EmptyString
  | String c s' => if drop c then lstrip_with drop s' else s
  end.

Fixpoint rstrip_with (drop : ascii -> bool) (s : string) : string :=
  match s with
  | EmptyString => EmptyString
  | String c s' =>
      match rstrip_with drop s' with
      | EmptyString => if drop c then EmptyString else String c EmptyString
      | String _ _ as r => String c r
      end
  end.

(** [s.strip()] and [s.strip(chars)] *)
Definition strip (s : string) : string :=
  rstrip_with isspace (lstrip_with isspace s).

Definition strip_chars (chars s : string) : string :=
  rstrip_with (char_in chars) (lstrip_with (char_in chars) s).

(** [s.split()]: the maximal pieces of [s] without white space, in
    order; [word] is the piece being read. *)
Fixpoint split_from (word s : string) : list string :=
  match s with
  | EmptyString =>
      match word with
      | EmptyString => []
      | String _ _ => [word]
      end
  | String c s' =>
      if isspace c then
        match word with
        | EmptyString => split_from EmptyString s'
        | String _ _ => word :: split_from EmptyString s'
        end
      else split_from (word +:+ String c EmptyString) s'
  end.

Definition split_ws (s : string) : list string := split_from EmptyString s.

(** [l[-1]] for a list. *)
Definition getitem_last {A : Type} (l : list A) : result A :=
  match last l with
  | Some x => Ok x
  | None => Raise (mk_exn IndexError "list index out of range")
  end.

(** The number of digits CPython converts between [str] and [int]
    at most, unless configured otherwise; longer conversions raise. *)
Definition int_max_str_digits : nat := Py.int_max_str_digits.

(** [str(n)] for an integer of at most [int_max_str_digits] digits:
    its decimal digits, after a minus sign when it is negative. *)
Definition str_int (n : Z) : string :=
  match n with
  | Z0 => "0"
  | Zpos p => DecimalString.NilEmpty.string_of_uint (Pos.to_uint p)
  | Zneg p => String "-" (DecimalString.NilEmpty.string_of_uint (Pos.to_uint p))
  end.

(** The strings whose characters all satisfy [p]. *)
Definition all_chars (p : ascii -> bool) (s : string) : Prop :=
  forall c : ascii, In c (list_ascii_of_string s) -> p c = true.

(** [str(b)] for a truth value. *)
Definition str_bool (b : bool) : string := if b then "True" else "False".

End PyText.

(** ** setup.py *)
Module Setup.

(** The file CMakeLists.txt as [get_version] meets it: it does not
    exist; or [exists()] or [open] raises (no permission, a directory);
    or the iteration over the open file gives lines to the loop, and
    then ends or raises (bytes the encoding of the locale does not
    decode). *)
Inductive text_file : Type :=
  | missing
  | unopenable (e : exn)
  | readable (lines : list string) (stop : option exn).

(** The loop of [get_version] over the lines that are left: the
    version of the first line that sets it, [None] when the loop ends
    without [return]. *)
Fixpoint scan_version (lines : list string) : result (option string) :=
  match lines with
  | [] => Ok None
  | line :: rest =>
      if Py.startswith (PyText.strip line) "set(RDNA_STACK_VERSION" then
        (word <~ PyText.getitem_last (PyText.split_ws line) ;;
         Ok (Some (PyText.strip_chars ")" word)))%result
      else scan_version rest
  end.

Definition get_version (cmake_file : text_file) : result string :=
  match cmake_file with
  | missing => Ok "0.1.0"
  | unopenable e => Raise e
  | readable lines stop =>
      (found <~ scan_version lines ;;
       match found with
       | Some version => Ok version
       | None =>
           match stop with
           | Some e => Raise e
           | None => Ok "0.1.0"
           end
       end)%result
  end.

(** The line that sets the version in CMakeLists.txt: the command
    with its argument, after [indent], with [gap] between the name of
    the variable and the version, and [trail] after the parenthesis. *)
Definition version_line (indent gap version trail : string) : string :=
  indent +:+ "set(RDNA_STACK_VERSION" +:+ gap +:+ version +:+ ")" +:+ trail.

(** A character of a version: no white space, no closing
    parenthesis. *)
Definition version_char (c : ascii) : bool :=
  negb (PyText.isspace c) && negb (Ascii.eqb c ")").

End Setup.

(** ** States of the module that calls reach *)
Module Reach.

Import Rdna.

(** What every instance holds once [__init__] returned: an attribute
    [device_id]; and [prev_device], when [__enter__] has set it, is the
    value of [current_device()]. *)
Definition instance_ok (o : object) : Prop :=
  is_Some (obj_dict o !! "device_id") /\
  (obj_dict o !! "prev_device" = None \/
   obj_dict o !! "prev_device" = Some 0%Z).

Definition heap_ok (s : State) : Prop :=
  forall (l : loc) (o : object), heap s !! l = Some o -> instance_ok o.

(** [s'] keeps what [s] has: the global [_available], the extension
    module and the statistics of its allocator are the same, and every
    instance of [s] is an instance of [s'] of the same class and with
    the same [device_id]. *)
Definition keeps (s s' : State) : Prop :=
  _available s' = _available s /\
  native s' = native s /\
  allocator s' = allocator s /\
  forall (l : loc) (o : object),
    heap s !! l = Some o ->
    exists o' : object,
      heap s' !! l = Some o' /\
      obj_class o' = obj_class o /\
      obj_dict o' !! "device_id" = obj_dict o !! "device_id".

(** The state [__enter__] leaves for the instance [o] at [mgr]. *)
Definition entered (mgr : loc) (o : object) (s : State) : State :=
  set_heap
    (<[mgr := {| obj_class := obj_class o;
                 obj_dict := <["prev_device" := 0%Z]> (obj_dict o) |}]>
       (heap s)) s.

(** The three ways a call changes the state: not at all, by a new
    instance with [device_id] at a free reference, or by
    [prev_device := 0] on an instance. *)
Inductive call_effect (s s' : State) : Prop :=
  | effect_none : s' = s -> call_effect s s'
  | effect_new l c n :
      heap s !! l = None ->
      s' = set_heap (<[l := {| obj_class := c;
                               obj_dict := {["device_id" := n]} |}]> (heap s)) s ->
      call_effect s s'
  | effect_enter l o :
      heap s !! l = Some o ->
      s' = entered l o s ->
      call_effect s s'.

End Reach.

(** ** examples/basic_usage.py *)
Module BasicUsage.

Import Rdna.

(** A script runs in the state of the interpreter and prints lines:
    the second component holds the arguments of the calls of [print]
    so far, oldest first. *)
Definition world : Type := State * list string.

Definition IO (A : Type) : Type := world -> result A * world.

Definition io_ret {A : Type} (a : A) : IO A := fun w => (Ok a, w).

Definition io_bind {A B : Type} (m : IO A) (k : A -> IO B) : IO B :=
  fun w =>
    match m w with
    | (Ok a, w') => k a w'
    | (Raise e, w') => (Raise e, w')
    end.

(** A function of the module called from the script. *)
Definition invoke {A : Type} (m : M A) : IO A :=
  fun w =>
    match m (fst w) with
    | (r, s') => (r, (s', snd w))
    end.

Definition io_lift {A : Type} (r : result A) : IO A := fun w => (r, w).

Definition print (line : string) : IO unit :=
  fun w => (Ok tt, (fst w, (snd w ++ [line])%list)).

Declare Scope io_scope.
Delimit Scope io_scope with io.
Notation "x <- m ;; k" := (io_bind m (fun x => k))
  (at level 20, m at level 99, k at level 200) : io_scope.
Notation "m ;; k" := (io_bind m (fun _ => k))
  (at level 100, k at level 200, right associativity) : io_scope.

Local Open Scope io_scope.

(** [try: body  except Exception as e: handler(e)] *)
Definition try_except {A : Type} (body : IO A) (handler : exn -> IO A) : IO A :=
  fun w =>
    match body w with
    | (Ok a, w') => (Ok a, w')
    | (Raise e, w') => if is_Exception e then handler e w' else (Raise e, w')
    end.

(** [with mgr as v: body] for a body of the script; as [with_stmt]. *)
Definition with_io {A : Type} (mgr : loc) (body : loc -> IO A) : IO A :=
  fun w =>
    match invoke (class_of mgr) w with
    | (Raise e, w0) => (Raise e, w0)
    | (Ok c, w0) =>
        match invoke (enter_of c mgr) w0 with
        | (Raise e, w1) => (Raise e, w1)
        | (Ok v, w1) =>
            match body v w1 with
            | (Ok a, w2) =>
                match invoke (exit_of c mgr) w2 with
                | (Ok _, w3) => (Ok a, w3)
                | (Raise e', w3) => (Raise e', w3)
                end
            | (Raise e, w2) =>
                match invoke (exit_of c mgr) w2 with
                | (Ok _, w3) => (Raise e, w3)
                | (Raise e', w3) => (Raise e', w3)
                end
            end
        end
    end.

(** [for i in items: body(i)] *)
Fixpoint for_each {A : Type} (items : list A) (body : A -> IO unit) : IO unit :=
  match items with
  | [] => io_ret tt
  | i :: rest => (body i ;; for_each rest body)
  end.

(** [range(n)] *)
Definition range (n : Z) : list Z :=
  List.map Z.of_nat (List.seq 0 (Z.to_nat n)).

(** [d.name] for a dictionary [d] and a name that is no method of
    [dict]: the entries of a dictionary are not attributes. *)
Definition dict_attr (d : gmap string pyval) (name : string) : result pyval :=
  Raise (mk_exn AttributeError
           ("'dict' object has no attribute '" +:+ name +:+ "'")).

(** [str(v)] *)
Definition str_val (v : pyval) : string :=
  match v with
  | PyNone => "None"
  | PyBool b => PyText.str_bool b
  | PyInt n => PyText.str_int n
  | PyStr s => s
  end.

Definition newline : string := String (ascii_of_nat 10) EmptyString.

(** [demonstrate_device_discovery()].  The lines of the loop after the
    first two format floating-point numbers and flags; they are the
    computation [more], given the index and the properties. *)
Definition demonstrate_device_discovery
    (more : Z -> gmap string pyval -> IO unit) : IO unit :=
  print (newline +:+ "=== Device Discovery ===") ;;
  available <- invoke is_available ;;
  print ("RDNA available: " +:+ PyText.str_bool available) ;;
  if negb available then
    print "No RDNA devices found. Running in simulation mode."
  else
    count <- invoke device_count ;;
    print ("Number of RDNA devices: " +:+ PyText.str_int count) ;;
    for_each (range count) (fun i =>
      props <- invoke (get_device_properties (Some i)) ;;
      name <- io_lift (dict_attr props "name") ;;
      print ("Device " +:+ PyText.str_int i +:+ ": " +:+ str_val name) ;;
      arch <- io_lift (dict_attr props "arch") ;;
      print ("  Architecture: " +:+ str_val arch) ;;
      more i props).

Definition demonstrate_kernel_operations : IO unit :=
  print (newline +:+ "=== Kernel Operations ===") ;;
  print "Kernel operations would be available with ROCm installation" ;;
  print "Operations include: matmul, convolution, element-wise ops".

Definition demonstrate_pytorch_style : IO unit :=
  print (newline +:+ "=== PyTorch-style API ===") ;;
  try_except
    (mgr <- invoke (device "rdna:0") ;;
     with_io mgr (fun _ => print "Operations inside rdna device context"))
    (fun e => print ("Device context simulation: " +:+ exn_msg e)) ;;
  invoke empty_cache ;;
  print "Cache emptied (PyTorch style)".

Definition demonstrate_tensorflow_style : IO unit :=
  print (newline +:+ "=== TensorFlow-style API ===") ;;
  try_except
    (mgr <- invoke (tf_device "/device:RDNA:0") ;;
     with_io mgr
       (fun _ => print "Operations inside TensorFlow RDNA device context"))
    (fun e => print ("Device context simulation: " +:+ exn_msg e)) ;;
  try_except
    (invoke (config_set_visible_devices [0%Z]) ;;
     print "Visible devices configured")
    (fun e => print ("Configuration simulation: " +:+ exn_msg e)).

End BasicUsage.

(** * Properties *)

(** ** The built-ins *)
Section PyFacts.

Import Py.

Example int_examples :
  int "0" = Ok 0%Z /\ int " +12 " = Ok 12%Z /\ int "-7" = Ok (-7)%Z /\
  int "1_000" = Ok 1000%Z /\ int "007" = Ok 7%Z.
Proof. repeat split; reflexivity. Qed.

Example int_rejects :
  Forall (fun s => exists e, int s = Raise e)
    [""; " "; "abc"; "1.5"; "0x10"; "+"; "+ 1"; "1 2"; "_1"; "1_"; "1__0"].
Proof. repeat constructor; eexists; reflexivity. Qed.

Example split_examples :
  split ":" "rdna:0" = ["rdna"; "0"] /\
  split ":" "/device:RDNA:1" = ["/device"; "RDNA"; "1"] /\
  split ":" "a::b" = ["a"; ""; "b"] /\
  split ":" "" = [""] /\
  split ":" "rdna" = ["rdna"].
Proof. repeat split; reflexivity. Qed.

Lemma int_raises_ValueError (s : string) (e : exn) :
  int s = Raise e -> exn_kind e = ValueError.
Proof.
  unfold int.
  destruct (run_digits (unsigned (strip s)) false) as [k|];
    [destruct (int_max_str_digits <? k)|];
    try (intros [= <-]; reflexivity);
    destruct (signed_digits (strip s)); intros [= <-]; reflexivity.
Qed.

Lemma int_ok_inv (s : string) (n : Z) :
  int s = Ok n -> signed_digits (strip s) = Some n.
Proof.
  unfold int.
  destruct (run_digits (unsigned (strip s)) false) as [k|];
    [destruct (int_max_str_digits <? k)|];
    try discriminate;
    destruct (signed_digits (strip s)); intros [= <-]; reflexivity.
Qed.

Lemma digits_chars (s : string) (acc : Z) (after_digit : bool) (n : Z) (c : ascii) :
  digits s acc after_digit = Some n ->
  In c (list_ascii_of_string s) ->
  is_digit c = true \/ c = "_"%char.
Proof.
  revert acc after_digit.
  induction s as [|a s IH]; intros acc after_digit Hd Hin; [destruct Hin|].
  simpl in Hd, Hin. destruct (is_digit a) eqn:Ha.
  - destruct Hin as [<-|Hin]; [left; exact Ha | eapply IH; eauto].
  - destruct (Ascii.eqb a "_") eqn:Hu; [|discriminate].
    apply Ascii.eqb_eq in Hu. destruct after_digit; [|discriminate].
    destruct Hin as [<-|Hin]; [right; exact Hu | eapply IH; eauto].
Qed.

Lemma signed_digits_chars (s : string) (n : Z) (c : ascii) :
  signed_digits s = Some n ->
  In c (list_ascii_of_string s) ->
  literal_char c = true.
Proof.
  assert (Hbody : forall s' m, digits s' 0%Z false = Some m ->
            In c (list_ascii_of_string s') -> literal_char c = true).
  { intros s' m Hd Hin. unfold literal_char.
    destruct (digits_chars s' 0%Z false m c Hd Hin) as [-> | ->].
    - rewrite orb_true_r. reflexivity.
    - reflexivity. }
  unfold signed_digits. intros Hs Hin.
  destruct s as [|a s']; [destruct Hin|].
  destruct (Ascii.eqb a "+") eqn:Hplus.
  - apply Ascii.eqb_eq in Hplus. subst a.
    destruct Hin as [<-|Hin]; [reflexivity | eapply Hbody; eauto].
  - destruct (Ascii.eqb a "-") eqn:Hminus.
    + apply Ascii.eqb_eq in Hminus. subst a.
      destruct (digits s' 0%Z false) as [m|] eqn:Hd; [|discriminate].
      destruct Hin as [<-|Hin]; [reflexivity | eapply Hbody; eauto].
    + assert (Hs' : digits (String a s') 0%Z false = Some n).
      { revert Hs. apply Ascii.eqb_neq in Hplus, Hminus.
        destruct a as [[] [] [] [] [] [] [] []]; try congruence; tauto. }
      eapply Hbody; eauto.
Qed.

Lemma lstrip_chars (s : string) (c : ascii) :
  In c (list_ascii_of_string s) ->
  is_space c = true \/ In c (list_ascii_of_string (lstrip s)).
Proof.
  induction s as [|a s IH]; intros Hin; [destruct Hin|].
  simpl. destruct (is_space a) eqn:Ha.
  - destruct Hin as [<-|Hin]; [left; exact Ha | apply IH, Hin].
  - right. exact Hin.
Qed.

Lemma str_rev_chars (s : string) (c : ascii) :
  In c (list_ascii_of_string (str_rev s)) <-> In c (list_ascii_of_string s).
Proof.
  unfold str_rev. rewrite list_ascii_of_string_of_list_ascii.
  symmetry. apply in_rev.
Qed.

Lemma strip_chars (s : string) (c : ascii) :
  In c (list_ascii_of_string s) ->
  is_space c = true \/ In c (list_ascii_of_string (strip s)).
Proof.
  intros Hin. unfold strip, rstrip.
  destruct (lstrip_chars s c Hin) as [Hsp|Hin1]; [left; exact Hsp|].
  apply str_rev_chars in Hin1.
  destruct (lstrip_chars _ c Hin1) as [Hsp|Hin2]; [left; exact Hsp|].
  right. apply str_rev_chars. exact Hin2.
Qed.

(** A string with a character that is neither white space, nor a sign,
    a digit or an underscore is no integer for [int]. *)
Lemma int_literal_chars (s : string) (n : Z) (c : ascii) :
  int s = Ok n ->
  In c (list_ascii_of_string s) ->
  literal_char c = true.
Proof.
  intros Hs Hin. apply int_ok_inv in Hs.
  destruct (strip_chars s c Hin) as [Hsp|Hin'].
  - unfold literal_char. rewrite Hsp. reflexivity.
  - exact (signed_digits_chars _ n c Hs Hin').
Qed.

Lemma prefix_empty (s : string) : String.prefix "" s = true.
Proof. destruct s; reflexivity. Qed.

Lemma prefix_char (c a : ascii) (s : string) :
  String.prefix (String c "") (String a s) = Ascii.eqb a c.
Proof.
  simpl. destruct (ascii_dec c a) as [->|Hne].
  - rewrite prefix_empty, Ascii.eqb_refl. reflexivity.
  - symmetry. apply Ascii.eqb_neq. congruence.
Qed.

Lemma split_length_pos (sep : ascii) (s : string) : 0 < length (split sep s).
Proof.
  induction s as [|c s IH]; simpl.
  - lia.
  - destruct (Ascii.eqb c sep); simpl; [lia|].
    destruct (split sep s); simpl; lia.
Qed.

(** A one-character string occurs in [s] exactly when splitting at
    that character gives more than one piece. *)
Lemma contains_char_split (sep : ascii) (s : string) :
  str_contains (String sep "") s = (1 <? length (split sep s)).
Proof.
  induction s as [|c s IH].
  - reflexivity.
  - cbn [str_contains split]. rewrite prefix_char, IH.
    pose proof (split_length_pos sep s) as Hpos.
    destruct (Ascii.eqb c sep); cbn [orb length].
    + symmetry. apply Nat.ltb_lt. lia.
    + destruct (split sep s); [simpl in Hpos; lia | reflexivity].
Qed.

Lemma split_lookup_contains (sep : ascii) (s part : string) :
  split sep s !! 1 = Some part -> str_contains (String sep "") s = true.
Proof.
  intros H. rewrite contains_char_split. apply Nat.ltb_lt.
  apply lookup_lt_Some in H. exact H.
Qed.

Lemma getitem_lookup {A : Type} (l : list A) (i : nat) (x : A) :
  l !! i = Some x -> getitem l i = Ok x.
Proof. unfold getitem. intros ->. reflexivity. Qed.

End PyFacts.

(** ** The module *)
Section RdnaFacts.

Import Rdna.
Local Open Scope py_scope.

Implicit Types (s : State) (c : pyclass) (mgr : loc) (i p : Z).

(** *** The functions that are placeholders *)

Lemma current_device_eq s : current_device s = (Ok 0%Z, s).
Proof. reflexivity. Qed.

Lemma set_device_eq i s : set_device i s = (Ok tt, s).
Proof. reflexivity. Qed.

Lemma empty_cache_eq s : empty_cache s = (Ok tt, s).
Proof. reflexivity. Qed.

Lemma get_device_properties_eq (device_id : option Z) s :
  get_device_properties device_id s = (Ok ∅, s).
Proof. reflexivity. Qed.

(** The value a computation returns in a state, when it returns. *)
Lemma bind_ok {A B : Type} (m : M A) (k : A -> M B) s (a : A) s' :
  m s = (Ok a, s') -> bind m k s = k a s'.
Proof. unfold bind. intros ->. reflexivity. Qed.

Lemma bind_raise {A B : Type} (m : M A) (k : A -> M B) s (e : exn) s' :
  m s = (Raise e, s') -> bind m k s = (Raise e, s').
Proof. unfold bind. intros ->. reflexivity. Qed.

(** *** The import *)

Lemma import_state_with (count : Z) (stats : gmap Z AllocatorStats) :
  fst (import_module (native_with count) stats) = Ok (state_with count stats).
Proof.
  unfold import_module, _check_availability, state_with.
  change (rdna_py_is_available (native_with count)) with (@Ok bool (0 <? count)%Z).
  change (rdna_py_initialize (native_with count)) with (Ok tt).
  destruct (0 <? count)%Z; reflexivity.
Qed.

(** *** Instances *)

Lemma heap_set_heap (h : gmap loc object) s : heap (set_heap h s) = h.
Proof. reflexivity. Qed.

Lemma getattr_new (c0 : pyclass) (d : gmap string Z) (name : string) (v : Z) s :
  d !! name = Some v ->
  let l := fresh (dom (heap s)) in
  let s' := set_heap (<[l := {| obj_class := c0; obj_dict := d |}]> (heap s)) s in
  getattr l name s' = (Ok v, s').
Proof.
  intros Hd l s'. unfold getattr, s'.
  rewrite heap_set_heap, lookup_insert_eq. simpl. rewrite Hd. reflexivity.
Qed.

(** [__enter__] keeps the device that was current in the attribute
    [prev_device] of the instance. *)
Lemma enter_captures c mgr s (v : loc) s1 p :
  current_device s = (Ok p, s) ->
  enter_of c mgr s = (Ok v, s1) ->
  v = mgr /\ getattr mgr "prev_device" s1 = (Ok p, s1).
Proof.
  intros Hp Henter. rewrite current_device_eq in Hp. injection Hp as <-.
  assert (Hbody : device__enter__ current_device set_device mgr s = (Ok v, s1))
    by (destruct c; exact Henter).
  clear Henter. revert Hbody.
  unfold device__enter__, bind, current_device, set_device, ret, setattr, getattr.
  destruct (heap s !! mgr) as [o|] eqn:Ho; [|discriminate].
  rewrite heap_set_heap, lookup_insert_eq. simpl.
  destruct (decide ("prev_device" = "device_id")) as [Heq|Hne]; [discriminate Heq|].
  rewrite lookup_insert_ne by exact Hne.
  destruct (obj_dict o !! "device_id") as [d|]; [|discriminate].
  intros [= <- <-]. split; [reflexivity|].
  rewrite heap_set_heap, lookup_insert_eq. simpl.
  rewrite lookup_insert_eq. reflexivity.
Qed.

(** [__exit__] of an instance that holds [prev_device] returns [None]
    and changes nothing. *)
Lemma exit_entered c mgr s p :
  getattr mgr "prev_device" s = (Ok p, s) ->
  exit_of c mgr s = (Ok tt, s).
Proof.
  intros Hget.
  assert (Hbody : device__exit__ set_device mgr s = (Ok tt, s)).
  { unfold device__exit__. rewrite (bind_ok _ _ _ _ _ Hget). reflexivity. }
  destruct c; exact Hbody.
Qed.

(** X8: a [with] block on an instance ends as its body ends, with the
    value of the body or with its exception, as long as the body
    leaves the attribute [prev_device] of the instance in place. *)
Lemma with_stmt_outcome {A : Type} c mgr (body : loc -> M A) s s1 s2
    (r : result A) p :
  class_of mgr s = (Ok c, s) ->
  enter_of c mgr s = (Ok mgr, s1) ->
  body mgr s1 = (r, s2) ->
  getattr mgr "prev_device" s2 = (Ok p, s2) ->
  with_stmt mgr body s = (r, s2).
Proof.
  intros Hclass Henter Hbody Hprev. unfold with_stmt, with_using.
  rewrite Hclass, Henter, Hbody, (exit_entered c mgr s2 p Hprev).
  destruct r; reflexivity.
Qed.

(** [__enter__] over any two functions: when it returns, it returns
    the instance, and the instance holds the value that was current in
    [prev_device]. *)
Lemma enter_calling_inv (get : M Z) (set : Z -> M unit) c mgr s (v : loc) s1 p :
  (forall i s0, heap (snd (set i s0)) = heap s0) ->
  get s = (Ok p, s) ->
  enter_calling get set c mgr s = (Ok v, s1) ->
  v = mgr /\
  exists o, heap s1 !! mgr = Some o /\ obj_dict o !! "prev_device" = Some p.
Proof.
  intros Hframe Hget Henter.
  assert (Hbody : device__enter__ get set mgr s = (Ok v, s1))
    by (destruct c; exact Henter).
  clear Henter. revert Hbody.
  unfold device__enter__, bind. rewrite Hget. unfold setattr.
  destruct (heap s !! mgr) as [o0|] eqn:Ho; [|discriminate].
  unfold getattr. rewrite heap_set_heap, lookup_insert_eq. cbn [obj_dict].
  rewrite lookup_insert_ne by discriminate.
  destruct (obj_dict o0 !! "device_id") as [d|]; [|discriminate].
  match goal with |- context [set d ?sA] =>
    pose proof (Hframe d sA) as Hheap; destruct (set d sA) as [[[]|e] sB]
  end; [|discriminate].
  unfold ret. intros [= <- <-]. split; [reflexivity|].
  cbn [snd] in Hheap. rewrite Hheap, heap_set_heap, lookup_insert_eq.
  eexists. split; [reflexivity|]. cbn [obj_dict]. apply lookup_insert_eq.
Qed.

(** [__exit__] over any function [set]: it calls [set] on the value
    of [prev_device], and ends as that call ends. *)
Lemma exit_calling_spec (set : Z -> M unit) c mgr o s p :
  heap s !! mgr = Some o ->
  obj_dict o !! "prev_device" = Some p ->
  exit_calling set c mgr s
  = match set p s with
    | (Ok _, s') => (Ok tt, s')
    | (Raise e, s') => (Raise e, s')
    end.
Proof.
  intros Ho Hp.
  assert (Hbody : exit_calling set c mgr s = device__exit__ set mgr s)
    by (destruct c; reflexivity).
  rewrite Hbody. unfold device__exit__, bind, getattr, ret. rewrite Ho, Hp.
  destruct (set p s) as [[[]|e] s']; reflexivity.
Qed.

(** C1: a [with] block on an instance of [device] or [tf_device],
    entered while the device [p] is current, ends as its body ends,
    with a value or with an exception, and on both paths [__exit__]
    has called [set_device(p)] on the state the body left, so that
    [current_device()] returns [p] again.  This holds of the methods
    for whatever the module binds to the two names, as long as
    [set_device] leaves the instances alone and [set_device(p)] returns
    and makes [p] current, which the two functions of the module do for
    the device they report; the body may do anything but change the
    instance. *)
Theorem with_restores_current_device {A : Type} (get : M Z) (set : Z -> M unit)
    c mgr (body : loc -> M A) s p (v : loc) s1 (r : result A) s' :
  (forall i s0, heap (snd (set i s0)) = heap s0) ->
  (forall s0, fst (set p s0) = Ok tt /\
              get (snd (set p s0)) = (Ok p, snd (set p s0))) ->
  get s = (Ok p, s) ->
  class_of mgr s = (Ok c, s) ->
  enter_calling get set c mgr s = (Ok v, s1) ->
  heap (snd (body v s1)) !! mgr = heap s1 !! mgr ->
  with_using (enter_calling get set) (exit_calling set) mgr body s = (r, s') ->
  r = fst (body v s1) /\
  s' = snd (set p (snd (body v s1))) /\
  get s' = (Ok p, s').
Proof.
  intros Hframe Hset Hget Hclass Henter Hbody.
  destruct (enter_calling_inv get set c mgr s v s1 p Hframe Hget Henter)
    as (-> & o & Ho & Hprev).
  unfold with_using. rewrite Hclass, Henter.
  destruct (body mgr s1) as [r2 s2]. cbn [fst snd] in *.
  rewrite <- Hbody in Ho.
  rewrite (exit_calling_spec set c mgr o s2 p Ho Hprev).
  destruct (Hset s2) as [Hok Hcur].
  destruct (set p s2) as [r3 s3]. cbn [fst snd] in *. subst r3.
  destruct r2 as [a|e]; intros [= <- <-]; auto.
Qed.

Lemma with_restores_current_device_witness :
  let s := snd (device "rdna:1" (state_with 2 ∅)) in
  let boom := mk_exn RuntimeError "error inside the block" in
  let body := fun _ : loc => set_device 1 ;; @raise unit boom in
  fst (with_stmt 0 body s) = Raise boom /\
  current_device (snd (with_stmt 0 body s)) = (Ok 0%Z, snd (with_stmt 0 body s)).
Proof.
  intros s boom body.
  destruct (with_restores_current_device current_device set_device cls_device
              0 body s 0%Z 0 (snd (enter_of cls_device 0 s))
              (fst (with_stmt 0 body s)) (snd (with_stmt 0 body s)))
    as (Hr & _ & Hcur).
  - reflexivity.
  - intros s0. split; reflexivity.
  - reflexivity.
  - reflexivity.
  - reflexivity.
  - reflexivity.
  - apply surjective_pairing.
  - split; [rewrite Hr; reflexivity | exact Hcur].
Defined.

(** *** set_device and current_device *)

(** C2, the part the code has by design: [set_device(index)] tests
    its index against nothing; it fails for no index, be it below
    [device_count()] or not. *)
Theorem set_device_never_out_of_range (index : Z) s :
  exists v : unit, fst (set_device index s) = Ok v.
Proof. exists tt. reflexivity. Qed.

(** With two devices found, [set_device(5)] does not raise although
    [5 >= device_count()]. *)
Lemma set_device_unchecked :
  let s := state_with 2 ∅ in
  device_count s = (Ok 2%Z, s) /\
  (2 <= 5)%Z /\ fst (set_device 5 s) = Ok tt.
Proof. intros s. repeat split; try reflexivity. lia. Qed.

(** C10: [current_device()] returns [0] in the state any sequence of
    calls of [set_device], of the two classes and of [__enter__] and
    [__exit__] leads to, and [set_device(i)] returns [None] for every
    [i]. *)
Theorem current_device_always_zero (cs : list call) s i :
  current_device (run_calls cs s) = (Ok 0%Z, run_calls cs s) /\
  fst (set_device i (run_calls cs s)) = Ok tt.
Proof.
  revert s. induction cs as [|c0 cs IH]; intros s.
  - split; reflexivity.
  - cbn [run_calls]. apply IH.
Qed.

(** *** get_device_properties *)

(** C3, as the code has it: for an index outside
    [[0, device_count())], [get_device_properties(index)] does not
    raise; it returns the empty dictionary. *)
Theorem get_device_properties_out_of_range i s (n : Z) :
  device_count s = (Ok n, s) ->
  ~ (0 <= i < n)%Z ->
  get_device_properties (Some i) s = (Ok ∅, s).
Proof. intros _ _. apply get_device_properties_eq. Qed.

Lemma get_device_properties_out_of_range_witness :
  get_device_properties (Some 2%Z) (state_with 2 ∅) = (Ok ∅, state_with 2 ∅).
Proof.
  apply (get_device_properties_out_of_range 2 (state_with 2 ∅) 2).
  - reflexivity.
  - lia.
Defined.

(** No device found: [get_device_properties(0)] returns a dictionary;
    two devices found: [get_device_properties(2)], the index
    [device_count()], returns one too.  Neither call raises. *)
Lemma get_device_properties_unchecked :
  let s0 := state_with 0 ∅ in
  let s2 := state_with 2 ∅ in
  (device_count s0 = (Ok 0%Z, s0) /\
   forall e, fst (get_device_properties (Some 0%Z) s0) <> Raise e) /\
  (device_count s2 = (Ok 2%Z, s2) /\
   forall e, fst (get_device_properties (Some 2%Z) s2) <> Raise e).
Proof.
  intros s0 s2. repeat split; intros e; rewrite get_device_properties_eq;
    simpl; intros [=].
Qed.

(** C4: with two devices found, [get_device_properties(1)] returns the
    empty dictionary.  It holds no index, and the first attribute the
    example reads from it, [props.name], raises [AttributeError]. *)
Theorem get_device_properties_no_index :
  let s := state_with 2 ∅ in
  device_count s = (Ok 2%Z, s) /\ (0 <= 1 < 2)%Z /\
  get_device_properties (Some 1%Z) s = (Ok ∅, s) /\
  (∅ : gmap string pyval) !! "index" = None /\
  BasicUsage.dict_attr ∅ "name"
  = Raise (mk_exn AttributeError "'dict' object has no attribute 'name'").
Proof. intros s. repeat split; try reflexivity. lia. Qed.

(** *** The constructors *)

Lemma construct_init c (device_str : string) s :
  construct c device_str s =
  new_object c
    (fun self => match c with
                 | cls_device => device__init__ self device_str
                 | cls_tf_device => tf_device__init__ self device_str
                 end) s.
Proof. destruct c; reflexivity. Qed.

Lemma new_object_raise c (init : gmap string Z -> result (gmap string Z))
    (e : exn) s :
  init ∅ = Raise e -> new_object c init s = (Raise e, s).
Proof. unfold new_object. intros ->. reflexivity. Qed.

Lemma init_wrong_prefix c (self : gmap string Z) (device_str : string) :
  Py.startswith device_str (class_prefix c) = false ->
  match c with
  | cls_device => device__init__ self device_str
  | cls_tf_device => tf_device__init__ self device_str
  end = Raise (mk_exn ValueError ("Unsupported device: " +:+ device_str)).
Proof.
  destruct c; simpl; intros Hpre.
  - unfold device__init__. rewrite Hpre. reflexivity.
  - unfold tf_device__init__. rewrite Hpre. reflexivity.
Qed.

Lemma init_bad_index c (self : gmap string Z) (device_str part : string)
    (e : exn) :
  Py.startswith device_str (class_prefix c) = true ->
  index_part c device_str = Some part ->
  Py.int part = Raise e ->
  match c with
  | cls_device => device__init__ self device_str
  | cls_tf_device => tf_device__init__ self device_str
  end = Raise e.
Proof.
  unfold index_part. destruct c; simpl; intros Hpre Hpart Hint.
  - unfold device__init__. rewrite Hpre.
    rewrite (split_lookup_contains _ _ _ Hpart).
    rewrite (getitem_lookup _ _ _ Hpart). simpl. rewrite Hint. reflexivity.
  - unfold tf_device__init__. rewrite Hpre.
    apply lookup_lt_Some in Hpart as Hlen.
    apply Nat.ltb_lt in Hlen. rewrite Hlen.
    rewrite (getitem_lookup _ _ _ Hpart). simpl. rewrite Hint. reflexivity.
Qed.

(** C5: the call of [device] or of [tf_device] on a malformed
    identifier, one whose prefix is wrong or whose piece at the index
    position [int] does not accept, raises [ValueError], the error of
    an invalid argument, and leaves the state as it was: no instance is
    made, and [set_device] is not called. *)
Theorem malformed_identifier_rejected c (device_str : string) s :
  malformed c device_str ->
  exists msg : string,
    construct c device_str s = (Raise (mk_exn ValueError msg), s).
Proof.
  intros Hbad. rewrite construct_init.
  destruct (Py.startswith device_str (class_prefix c)) eqn:Hpre.
  - destruct Hbad as [Hwrong | part e Hpart Hint]; [congruence|].
    exists (exn_msg e). apply new_object_raise.
    rewrite (init_bad_index c ∅ device_str part e Hpre Hpart Hint).
    pose proof (int_raises_ValueError part e Hint) as Hkind.
    destruct e as [k m]; simpl in *; subst k. reflexivity.
  - eexists. apply new_object_raise.
    apply (init_wrong_prefix c ∅ device_str Hpre).
Qed.

Lemma malformed_identifier_rejected_witness :
  let s := state_with 2 ∅ in
  (exists msg, construct cls_device "cuda:0" s = (Raise (mk_exn ValueError msg), s)) /\
  (exists msg, construct cls_device "rdna:one" s = (Raise (mk_exn ValueError msg), s)) /\
  (exists msg, construct cls_tf_device "/device:GPU:0" s = (Raise (mk_exn ValueError msg), s)) /\
  (exists msg, construct cls_tf_device "/device:RDNA:1.5" s = (Raise (mk_exn ValueError msg), s)).
Proof.
  intros s. repeat split.
  - apply (malformed_identifier_rejected cls_device "cuda:0" s).
    apply wrong_prefix. reflexivity.
  - apply (malformed_identifier_rejected cls_device "rdna:one" s).
    eapply (non_integer_index cls_device "rdna:one" "one"); reflexivity.
  - apply (malformed_identifier_rejected cls_tf_device "/device:GPU:0" s).
    apply wrong_prefix. reflexivity.
  - apply (malformed_identifier_rejected cls_tf_device "/device:RDNA:1.5" s).
    eapply (non_integer_index cls_tf_device "/device:RDNA:1.5" "1.5"); reflexivity.
Defined.

(** Text after the index piece is not read: ['rdna:0:junk'] gives an
    instance of device [0] and ['/device:RDNA:2:not:an:int'] one of
    device [2], although what follows the prefix, ['0:junk'] and
    ['2:not:an:int'], is no integer. *)
Lemma malformed_suffix_accepted :
  let s := state_with 3 ∅ in
  (spec_malformed cls_device "rdna:0:junk" /\
   exists l s', construct cls_device "rdna:0:junk" s = (Ok l, s') /\
                getattr l "device_id" s' = (Ok 0%Z, s')) /\
  (spec_malformed cls_tf_device "/device:RDNA:2:not:an:int" /\
   exists l s', construct cls_tf_device "/device:RDNA:2:not:an:int" s = (Ok l, s') /\
                getattr l "device_id" s' = (Ok 2%Z, s')).
Proof.
  intros s. split; split.
  - eapply (spec_non_integer_suffix cls_device "rdna:0:junk" "0:junk");
      reflexivity.
  - eexists _, _. split; reflexivity.
  - eapply (spec_non_integer_suffix cls_tf_device
              "/device:RDNA:2:not:an:int" "2:not:an:int"); reflexivity.
  - eexists _, _. split; reflexivity.
Qed.

(** X3: a constructor raises on malformed identifiers only; its
    exception is a [ValueError], never the [IndexError] of a missing
    piece, and the state is the one of the call. *)
Lemma construct_raise_inv c (device_str : string) s (e : exn) s' :
  construct c device_str s = (Raise e, s') ->
  malformed c device_str /\ exn_kind e = ValueError /\ s' = s.
Proof.
  rewrite construct_init. unfold new_object.
  destruct (Py.startswith device_str (class_prefix c)) eqn:Hpre.
  - destruct (index_part c device_str) as [part|] eqn:Hpart.
    + destruct (Py.int part) as [n|e0] eqn:Hint.
      * intros Hc. exfalso. unfold index_part in Hpart.
        revert Hc. destruct c; simpl in Hpre, Hpart.
        -- unfold device__init__. rewrite Hpre.
           rewrite (split_lookup_contains _ _ _ Hpart).
           rewrite (getitem_lookup _ _ _ Hpart). simpl. rewrite Hint.
           simpl. discriminate.
        -- unfold tf_device__init__. rewrite Hpre.
           apply lookup_lt_Some in Hpart as Hlen.
           apply Nat.ltb_lt in Hlen. rewrite Hlen.
           rewrite (getitem_lookup _ _ _ Hpart). simpl. rewrite Hint.
           simpl. discriminate.
      * rewrite (init_bad_index c ∅ device_str part e0 Hpre Hpart Hint).
        intros [= <- <-]. split; [|split; [|reflexivity]].
        -- exact (non_integer_index c device_str part e0 Hpart Hint).
        -- exact (int_raises_ValueError part e0 Hint).
    + intros Hc. exfalso. unfold index_part in Hpart.
      apply lookup_ge_None in Hpart.
      revert Hc. destruct c; simpl in Hpre, Hpart.
      * unfold device__init__. rewrite Hpre, contains_char_split.
        replace (1 <? length (Py.split ":" device_str)) with false
          by (symmetry; apply Nat.ltb_ge; lia).
        discriminate.
      * unfold tf_device__init__. rewrite Hpre.
        replace (2 <? length (Py.split ":" device_str)) with false
          by (symmetry; apply Nat.ltb_ge; lia).
        discriminate.
  - rewrite (init_wrong_prefix c ∅ device_str Hpre).
    intros [= <- <-]. split; [|split; reflexivity].
    exact (wrong_prefix c device_str Hpre).
Qed.

Lemma init_omits_index c (self : gmap string Z) (device_str : string) :
  omits_index c device_str ->
  match c with
  | cls_device => device__init__ self device_str
  | cls_tf_device => tf_device__init__ self device_str
  end = Ok (<["device_id" := 0%Z]> self).
Proof.
  intros [Hpre Hidx]. destruct c; simpl in *.
  - unfold device__init__. rewrite Hpre, Hidx. reflexivity.
  - unfold tf_device__init__. rewrite Hpre.
    replace (2 <? length (Py.split ":" device_str)) with false
      by (symmetry; apply Nat.ltb_ge; lia).
    reflexivity.
Qed.

(** C9: the call of [device] on a string that starts with [rdna] and
    holds no colon, and the call of [tf_device] on a string that
    starts with [/device:RDNA] and has fewer than three pieces between
    colons, returns a new instance whose [device_id] is [0]. *)
Theorem identifier_without_index c (device_str : string) s :
  omits_index c device_str ->
  exists (l : loc) (s' : State),
    construct c device_str s = (Ok l, s') /\
    heap s !! l = None /\
    class_of l s' = (Ok c, s') /\
    getattr l "device_id" s' = (Ok 0%Z, s').
Proof.
  intros Homit. rewrite construct_init. unfold new_object.
  rewrite (init_omits_index c ∅ device_str Homit).
  eexists _, _. split; [reflexivity|]. split.
  - apply not_elem_of_dom. apply is_fresh.
  - split.
    + unfold class_of. rewrite heap_set_heap, lookup_insert_eq. reflexivity.
    + apply getattr_new. apply lookup_insert_eq.
Qed.

Lemma identifier_without_index_witness :
  let s := state_with 1 ∅ in
  (exists l s', construct cls_device "rdnafoo" s = (Ok l, s') /\
     heap s !! l = None /\ class_of l s' = (Ok cls_device, s') /\
     getattr l "device_id" s' = (Ok 0%Z, s')) /\
  (exists l s', construct cls_tf_device "/device:RDNA" s = (Ok l, s') /\
     heap s !! l = None /\ class_of l s' = (Ok cls_tf_device, s') /\
     getattr l "device_id" s' = (Ok 0%Z, s')).
Proof.
  intros s. split.
  - apply (identifier_without_index cls_device "rdnafoo" s).
    split; reflexivity.
  - apply (identifier_without_index cls_tf_device "/device:RDNA" s).
    split; [reflexivity | simpl; lia].
Defined.

(** *** The memory functions *)

(** C6: [empty_cache()] is [pass]: it does not raise and changes
    nothing in any state, with free blocks or without.  The
    allocated-bytes statistic keeps its value and [memory_allocated]
    returns the same value before and after; the cached-bytes
    statistic keeps its value too, whatever it is. *)
Theorem empty_cache_no_effect (device_id : option Z) (d : Z) s :
  empty_cache s = (Ok tt, s) /\
  fst (memory_allocated device_id (snd (empty_cache s)))
    = fst (memory_allocated device_id s) /\
  allocated_bytes d (snd (empty_cache s)) = allocated_bytes d s /\
  cached_bytes d (snd (empty_cache s)) = cached_bytes d s.
Proof. repeat split. Qed.

(** After [allocate(0, 4096)] and [free] of the block, 4096 bytes are
    cached on device 0.  [empty_cache()] leaves them cached, where
    [emptyCache] of the allocator gives them back. *)
Lemma empty_cache_keeps_cached_bytes :
  let s := run_allocator allocator_exec
             [call_allocate 0 4096 (Some 0%N); call_free 0 4096]
             (state_with 1 ∅) in
  cached_bytes 0 s = 4096%N /\
  cached_bytes 0 (snd (empty_cache s)) = 4096%N /\
  cached_bytes 0 (allocator_exec (call_emptyCache None) s) = 0%N /\
  cached_bytes 0 (allocator_exec (call_emptyCache (Some 0%Z)) s) = 0%N.
Proof. intros s. repeat split. Qed.

Lemma max_memory_allocated_eq (device_id : option Z) s :
  max_memory_allocated device_id s = (Ok 0%Z, s).
Proof. reflexivity. Qed.

Lemma peak_bytes_set_stats (d d0 : Z) (st : AllocatorStats) s :
  peak_bytes d (set_stats d0 st s)
  = if decide (d = d0) then peakAllocatedBytes st else peak_bytes d s.
Proof.
  unfold peak_bytes, set_stats. cbn [allocator].
  destruct (decide (d = d0)) as [->|Hne].
  - rewrite lookup_insert_eq. reflexivity.
  - rewrite lookup_insert_ne by congruence. reflexivity.
Qed.

Lemma peak_bytes_stats_of (d : Z) s :
  peakAllocatedBytes (stats_of d s) = peak_bytes d s.
Proof.
  unfold stats_of, peak_bytes. destruct (allocator s !! d); reflexivity.
Qed.

(** [emptyCache] of the allocator leaves the peak of every device. *)
Lemma emptyCache_peak (deviceIndex : option Z) (d : Z) s :
  peak_bytes d (allocator_exec (call_emptyCache deviceIndex) s)
  = peak_bytes d s.
Proof.
  destruct deviceIndex as [d0|]; cbn [allocator_exec].
  - rewrite peak_bytes_set_stats. destruct (decide (d = d0)) as [->|_];
      [|reflexivity].
    cbn [without_cache peakAllocatedBytes]. apply peak_bytes_stats_of.
  - unfold peak_bytes. cbn [allocator]. rewrite lookup_fmap.
    destruct (allocator s !! d); reflexivity.
Qed.

(** No call of the allocator lowers the peak of a device. *)
Lemma allocator_exec_peak (op : allocator_call) (d : Z) s :
  (peak_bytes d s <= peak_bytes d (allocator_exec op s))%N.
Proof.
  destruct op as [d0 size [reused|] | d0 size | deviceIndex].
  - cbn [allocator_exec]. destruct (size =? 0)%N; [lia|].
    rewrite peak_bytes_set_stats. destruct (decide (d = d0)) as [->|_];
      [|lia].
    cbn [peakAllocatedBytes]. rewrite peak_bytes_stats_of. lia.
  - cbn [allocator_exec]. lia.
  - cbn [allocator_exec].
    rewrite peak_bytes_set_stats. destruct (decide (d = d0)) as [->|_];
      [|lia].
    cbn [peakAllocatedBytes]. rewrite peak_bytes_stats_of. lia.
  - rewrite emptyCache_peak. lia.
Qed.

Lemma run_allocator_peak (ops : list allocator_call) (d : Z) s :
  (peak_bytes d s <= peak_bytes d (run_allocator allocator_exec ops s))%N.
Proof.
  revert s. induction ops as [|op ops IH]; intros s; [cbn; lia|].
  change (run_allocator allocator_exec (op :: ops) s)
    with (run_allocator allocator_exec ops (allocator_exec op s)).
  pose proof (allocator_exec_peak op d s).
  pose proof (IH (allocator_exec op s)). lia.
Qed.

(** The scenario of the specification, on device 1 of two: the
    allocation of 1048576 bytes, the release of the block, the emptying
    of the cache; the peak stays at 1048576 from the allocation on. *)
Example allocator_scenario :
  let s0 := state_with 2 ∅ in
  let s1 := allocator_exec (call_allocate 1 1048576 (Some 0%N)) s0 in
  let s2 := allocator_exec (call_free 1 1048576) s1 in
  let s3 := allocator_exec (call_emptyCache (Some 1%Z)) s2 in
  (allocated_bytes 1 s1 = 1048576 /\ peak_bytes 1 s1 = 1048576)%N /\
  (allocated_bytes 1 s2 = 0 /\ cached_bytes 1 s2 = 1048576 /\
   peak_bytes 1 s2 = 1048576)%N /\
  (cached_bytes 1 s3 = 0 /\ peak_bytes 1 s3 = 1048576)%N.
Proof. repeat split. Qed.

(** C7: along every sequence of [allocate], [free] and [emptyCache]
    calls of the allocator, the peak-allocated-bytes statistic of a
    device is never less than it was earlier in the sequence;
    [emptyCache], and [empty_cache()] of the module, leave it as it is.
    [max_memory_allocated(d)] of the module returns [0] throughout,
    which does not decrease either. *)
Theorem max_memory_allocated_monotone
    (earlier later : list allocator_call) (d : Z) (device_id : option Z) s :
  (peak_bytes d (run_allocator allocator_exec earlier s)
   <= peak_bytes d (run_allocator allocator_exec (earlier ++ later) s))%N /\
  (forall deviceIndex : option Z,
     peak_bytes d (allocator_exec (call_emptyCache deviceIndex) s)
     = peak_bytes d s) /\
  peak_bytes d (snd (empty_cache s)) = peak_bytes d s /\
  (exists v v' : Z,
     fst (max_memory_allocated device_id
            (run_allocator allocator_exec earlier s)) = Ok v /\
     fst (max_memory_allocated device_id
            (run_allocator allocator_exec (earlier ++ later) s)) = Ok v' /\
     (v <= v')%Z) /\
  fst (max_memory_allocated device_id (snd (empty_cache s)))
    = fst (max_memory_allocated device_id s).
Proof.
  split; [|split; [|split; [|split]]].
  - unfold run_allocator at 2. rewrite fold_left_app.
    apply (run_allocator_peak later d).
  - intros deviceIndex. apply emptyCache_peak.
  - reflexivity.
  - exists 0%Z, 0%Z. rewrite !max_memory_allocated_eq. simpl.
    repeat split. lia.
  - reflexivity.
Qed.

(** *** is_available *)

Lemma check_availability_true (n : Native) (out : list string) :
  _check_availability n = (Ok true, out) <->
  rdna_py_is_available n = Ok true /\ rdna_py_initialize n = Ok tt /\ out = [].
Proof.
  unfold _check_availability.
  destruct (rdna_py_is_available n) as [[|]|e];
    [destruct (rdna_py_initialize n) as [[]|e] | |];
    try destruct (is_Exception e);
    (split; [intros [= Hout]; subst | intros (Hprobe & Hinit & ->)]);
    try discriminate; auto.
Qed.

(** C8, as the code has it: in the state the import leaves,
    [is_available()] does not raise; it returns [True] exactly when
    the probe of the extension module reported a device at import and
    [initialize()] then returned without an exception. *)
Theorem is_available_after_import (n : Native)
    (stats : gmap Z AllocatorStats) s (out : list string) :
  import_module n stats = (Ok s, out) ->
  exists b : bool,
    is_available s = (Ok b, s) /\
    (b = true <->
     rdna_py_is_available n = Ok true /\ rdna_py_initialize n = Ok tt).
Proof.
  unfold import_module.
  destruct (rdna_py_import n) as [[]|e0]; [|discriminate].
  destruct (_check_availability n) as [[b|e] out'] eqn:Hcheck; [|discriminate].
  intros [= <- <-]. exists b. split; [reflexivity|].
  split.
  - intros ->. apply check_availability_true in Hcheck. tauto.
  - intros [Hprobe Hinit]. revert Hcheck. unfold _check_availability.
    rewrite Hprobe, Hinit. congruence.
Qed.

Lemma is_available_after_import_witness :
  exists b : bool,
    is_available (state_with 1 ∅) = (Ok b, state_with 1 ∅) /\
    (b = true <->
     rdna_py_is_available (native_with 1) = Ok true /\
     rdna_py_initialize (native_with 1) = Ok tt).
Proof.
  apply (is_available_after_import (native_with 1) ∅ (state_with 1 ∅) []).
  reflexivity.
Defined.

(** The extension module reports a device, and one device is counted,
    but [initialize()] raises: the import succeeds and
    [is_available()] returns [False]. *)
Lemma is_available_false_with_device :
  rdna_py_is_available native_init_fails = Ok true /\
  rdna_py_device_count native_init_fails = 1%Z /\
  exists s out,
    import_module native_init_fails ∅ = (Ok s, out) /\
    is_available s = (Ok false, s).
Proof.
  split; [reflexivity|]. split; [reflexivity|].
  eexists _, _. split; reflexivity.
Qed.

End RdnaFacts.

(** ** Decimal identifiers *)
Section IdentifierFacts.

Import Py Rdna.

Implicit Types (s : State) (c : pyclass) (n : Z).

Lemma digits_digit (a : ascii) (rest : string) (acc : Z) (after_digit : bool) :
  is_digit a = true ->
  digits (String a rest) acc after_digit
  = digits rest (10 * acc + digit_value a)%Z true.
Proof. intros Ha. simpl. rewrite Ha. reflexivity. Qed.

Lemma is_digit_not_space (a : ascii) : is_digit a = true -> is_space a = false.
Proof.
  unfold is_digit, is_space. generalize (nat_of_ascii a). intros k Hk.
  apply andb_true_iff in Hk as [Hlo Hhi].
  apply Nat.leb_le in Hlo, Hhi.
  rewrite !orb_false_iff, andb_false_iff, !Nat.eqb_neq, !Nat.leb_gt. lia.
Qed.

(** The digits [str] writes for a positive number read back. *)
Lemma digits_string_of_uint_acc (d : Decimal.uint) (acc : positive)
    (after_digit : bool) :
  d <> Decimal.Nil \/ after_digit = true ->
  digits (NilEmpty.string_of_uint d) (Z.pos acc) after_digit
  = Some (Z.pos (Pos.of_uint_acc d acc)).
Proof.
  revert acc after_digit.
  induction d as [|d IH|d IH|d IH|d IH|d IH|d IH|d IH|d IH|d IH|d IH];
    intros acc after_digit Hd;
    [destruct Hd as [Hd | ->]; [congruence | reflexivity] | ..];
    cbn [NilEmpty.string_of_uint Pos.of_uint_acc];
    rewrite digits_digit by reflexivity;
    rewrite <- (IH _ true) by (right; reflexivity);
    f_equal; vm_compute digit_value; lia.
Qed.

Lemma digits_string_of_uint (d : Decimal.uint) (after_digit : bool) :
  d <> Decimal.Nil \/ after_digit = true ->
  digits (NilEmpty.string_of_uint d) 0%Z after_digit
  = Some (Z.of_N (Pos.of_uint d)).
Proof.
  revert after_digit.
  induction d as [|d IH|d IH|d IH|d IH|d IH|d IH|d IH|d IH|d IH|d IH];
    intros after_digit Hd;
    [destruct Hd as [Hd | ->]; [congruence | reflexivity] | ..];
    cbn [NilEmpty.string_of_uint Pos.of_uint];
    rewrite digits_digit by reflexivity;
    [apply IH; right; reflexivity | ..];
    apply (digits_string_of_uint_acc d _ true); right; reflexivity.
Qed.

Lemma digits_to_uint (p : positive) :
  digits (NilEmpty.string_of_uint (Pos.to_uint p)) 0%Z false = Some (Z.pos p).
Proof.
  rewrite digits_string_of_uint
    by (left; apply DecimalPos.Unsigned.to_uint_nonnil).
  rewrite DecimalPos.Unsigned.of_to. reflexivity.
Qed.

Lemma string_of_uint_digits (d : Decimal.uint) (a : ascii) :
  In a (list_ascii_of_string (NilEmpty.string_of_uint d)) -> is_digit a = true.
Proof.
  induction d as [|d IH|d IH|d IH|d IH|d IH|d IH|d IH|d IH|d IH|d IH];
    simpl; intros Hin; [destruct Hin | ..];
    (destruct Hin as [<- | Hin]; [reflexivity | exact (IH Hin)]).
Qed.

Lemma signed_digits_unsigned (d : Decimal.uint) :
  signed_digits (NilEmpty.string_of_uint d)
  = digits (NilEmpty.string_of_uint d) 0%Z false.
Proof. destruct d; reflexivity. Qed.

Lemma signed_digits_str_int n : signed_digits (PyText.str_int n) = Some n.
Proof.
  destruct n as [|p|p]; unfold PyText.str_int.
  - reflexivity.
  - rewrite signed_digits_unsigned. apply digits_to_uint.
  - cbn [signed_digits]. rewrite digits_to_uint. reflexivity.
Qed.

(** The characters [str] writes for an integer: digits and the minus
    sign. *)
Lemma str_int_chars n (a : ascii) :
  In a (list_ascii_of_string (PyText.str_int n)) ->
  is_digit a = true \/ a = "-"%char.
Proof.
  destruct n as [|p|p]; unfold PyText.str_int; simpl.
  - intros [<- | []]. left. reflexivity.
  - intros Hin. left. exact (string_of_uint_digits _ a Hin).
  - intros [<- | Hin]; [right; reflexivity|].
    left. exact (string_of_uint_digits _ a Hin).
Qed.

Lemma lstrip_id (t : string) :
  (forall a, In a (list_ascii_of_string t) -> is_space a = false) ->
  lstrip t = t.
Proof.
  destruct t as [|a t]; [reflexivity|]. intros Hns. simpl.
  rewrite (Hns a) by (left; reflexivity). reflexivity.
Qed.

Lemma str_rev_involutive (t : string) : str_rev (str_rev t) = t.
Proof.
  unfold str_rev. rewrite list_ascii_of_string_of_list_ascii, rev_involutive.
  apply string_of_list_ascii_of_string.
Qed.

Lemma strip_id (t : string) :
  (forall a, In a (list_ascii_of_string t) -> is_space a = false) ->
  strip t = t.
Proof.
  intros Hns. unfold strip, rstrip. rewrite (lstrip_id t Hns).
  rewrite lstrip_id.
  - apply str_rev_involutive.
  - intros a Hin. apply Hns. apply str_rev_chars. exact Hin.
Qed.

(** The digits [int] counts in what [str] writes. *)
Lemma run_digits_string_of_uint (d : Decimal.uint) (after_digit : bool) :
  d <> Decimal.Nil \/ after_digit = true ->
  run_digits (NilEmpty.string_of_uint d) after_digit
  = Some (Decimal.nb_digits d).
Proof.
  revert after_digit.
  induction d as [|d IH|d IH|d IH|d IH|d IH|d IH|d IH|d IH|d IH|d IH];
    intros after_digit Hd;
    [destruct Hd as [Hd | ->]; [congruence | reflexivity] | ..];
    cbn [NilEmpty.string_of_uint Decimal.nb_digits];
    (transitivity (S <$> run_digits (NilEmpty.string_of_uint d) true);
     [reflexivity | rewrite IH by (right; reflexivity); reflexivity]).
Qed.

Lemma unsigned_string_of_uint (d : Decimal.uint) :
  unsigned (NilEmpty.string_of_uint d) = NilEmpty.string_of_uint d.
Proof. destruct d; reflexivity. Qed.

Lemma of_uint_acc_lower (d : Decimal.uint) (acc : positive) :
  (Z.pos acc * 10 ^ Z.of_nat (Decimal.nb_digits d)
   <= Z.pos (Pos.of_uint_acc d acc))%Z.
Proof.
  revert acc.
  induction d as [|d IH|d IH|d IH|d IH|d IH|d IH|d IH|d IH|d IH|d IH];
    intros acc;
    [simpl; lia | ..];
    cbn [Pos.of_uint_acc Decimal.nb_digits];
    rewrite Nat2Z.inj_succ, Z.pow_succ_r by lia;
    (etransitivity; [|apply IH]);
    assert (0 < 10 ^ Z.of_nat (Decimal.nb_digits d))%Z
      by (apply Z.pow_pos_nonneg; lia);
    nia.
Qed.

(** A number written without a leading zero is at least the power of
    ten of as many digits but one. *)
Lemma of_uint_lower (d : Decimal.uint) :
  Decimal.unorm d = d -> d <> Decimal.D0 Decimal.Nil -> d <> Decimal.Nil ->
  (10 ^ Z.of_nat (Decimal.nb_digits d - 1) <= Z.of_N (Pos.of_uint d))%Z.
Proof.
  intros Hnorm Hzero Hnil.
  destruct d as [|d|d|d|d|d|d|d|d|d|d]; [congruence | | ..].
  - exfalso. pose proof (DecimalFacts.nb_digits_nzhead d) as Hnb.
    unfold Decimal.unorm in Hnorm. cbn [Decimal.nzhead] in Hnorm.
    destruct (Decimal.nzhead d) eqn:Hhead; try discriminate.
    + congruence.
    + injection Hnorm as ->. cbn [Decimal.nb_digits] in Hnb. lia.
  - cbn [Pos.of_uint Decimal.nb_digits Z.of_N].
    rewrite Nat.sub_succ, Nat.sub_0_r.
    etransitivity; [|apply of_uint_acc_lower]. lia.
  - cbn [Pos.of_uint Decimal.nb_digits Z.of_N].
    rewrite Nat.sub_succ, Nat.sub_0_r.
    etransitivity; [|apply of_uint_acc_lower].
    assert (0 < 10 ^ Z.of_nat (Decimal.nb_digits d))%Z
      by (apply Z.pow_pos_nonneg; lia). nia.
  - cbn [Pos.of_uint Decimal.nb_digits Z.of_N].
    rewrite Nat.sub_succ, Nat.sub_0_r.
    etransitivity; [|apply of_uint_acc_lower].
    assert (0 < 10 ^ Z.of_nat (Decimal.nb_digits d))%Z
      by (apply Z.pow_pos_nonneg; lia). nia.
  - cbn [Pos.of_uint Decimal.nb_digits Z.of_N].
    rewrite Nat.sub_succ, Nat.sub_0_r.
    etransitivity; [|apply of_uint_acc_lower].
    assert (0 < 10 ^ Z.of_nat (Decimal.nb_digits d))%Z
      by (apply Z.pow_pos_nonneg; lia). nia.
  - cbn [Pos.of_uint Decimal.nb_digits Z.of_N].
    rewrite Nat.sub_succ, Nat.sub_0_r.
    etransitivity; [|apply of_uint_acc_lower].
    assert (0 < 10 ^ Z.of_nat (Decimal.nb_digits d))%Z
      by (apply Z.pow_pos_nonneg; lia). nia.
  - cbn [Pos.of_uint Decimal.nb_digits Z.of_N].
    rewrite Nat.sub_succ, Nat.sub_0_r.
    etransitivity; [|apply of_uint_acc_lower].
    assert (0 < 10 ^ Z.of_nat (Decimal.nb_digits d))%Z
      by (apply Z.pow_pos_nonneg; lia). nia.
  - cbn [Pos.of_uint Decimal.nb_digits Z.of_N].
    rewrite Nat.sub_succ, Nat.sub_0_r.
    etransitivity; [|apply of_uint_acc_lower].
    assert (0 < 10 ^ Z.of_nat (Decimal.nb_digits d))%Z
      by (apply Z.pow_pos_nonneg; lia). nia.
  - cbn [Pos.of_uint Decimal.nb_digits Z.of_N].
    rewrite Nat.sub_succ, Nat.sub_0_r.
    etransitivity; [|apply of_uint_acc_lower].
    assert (0 < 10 ^ Z.of_nat (Decimal.nb_digits d))%Z
      by (apply Z.pow_pos_nonneg; lia). nia.
  - cbn [Pos.of_uint Decimal.nb_digits Z.of_N].
    rewrite Nat.sub_succ, Nat.sub_0_r.
    etransitivity; [|apply of_uint_acc_lower].
    assert (0 < 10 ^ Z.of_nat (Decimal.nb_digits d))%Z
      by (apply Z.pow_pos_nonneg; lia). nia.
Qed.

(** A positive number below [10 ^ m] is written with [m] digits at
    most. *)
Lemma to_uint_nb_digits (p : positive) (m : nat) :
  (Z.pos p < 10 ^ Z.of_nat m)%Z -> Decimal.nb_digits (Pos.to_uint p) <= m.
Proof.
  intros Hlt.
  pose proof (of_uint_lower (Pos.to_uint p)) as Hlow.
  rewrite DecimalPos.Unsigned.of_to in Hlow. cbn [Z.of_N] in Hlow.
  assert (Hnorm : Decimal.unorm (Pos.to_uint p) = Pos.to_uint p).
  { rewrite <- (DecimalPos.Unsigned.to_of (Pos.to_uint p)).
    rewrite DecimalPos.Unsigned.of_to. reflexivity. }
  specialize (Hlow Hnorm
                   (DecimalPos.Unsigned.to_uint_nonzero p)
                   (DecimalPos.Unsigned.to_uint_nonnil p)).
  assert (Z.of_nat (Decimal.nb_digits (Pos.to_uint p) - 1) < Z.of_nat m)%Z
    as Hexp by (apply (Z.pow_lt_mono_r_iff 10); lia).
  lia.
Qed.

Lemma int_digits_within (k : nat) (r : result Z) :
  k <= int_max_str_digits ->
  (if int_max_str_digits <? k then Raise (too_many_digits k) else r) = r.
Proof. intros Hk. apply Nat.ltb_ge in Hk. rewrite Hk. reflexivity. Qed.

(** [int(str(n)) == n], for the integers [str] converts. *)
Lemma int_str_int n :
  (Z.abs n < 10 ^ Z.of_nat int_max_str_digits)%Z ->
  int (PyText.str_int n) = Ok n.
Proof.
  intros Hn. unfold int. rewrite strip_id.
  - rewrite signed_digits_str_int.
    destruct n as [|p|p]; unfold PyText.str_int.
    + cbn [unsigned run_digits]. reflexivity.
    + rewrite unsigned_string_of_uint, run_digits_string_of_uint
        by (left; apply DecimalPos.Unsigned.to_uint_nonnil).
      apply int_digits_within, to_uint_nb_digits. exact Hn.
    + cbn [unsigned]. rewrite run_digits_string_of_uint
        by (left; apply DecimalPos.Unsigned.to_uint_nonnil).
      apply int_digits_within, to_uint_nb_digits. exact Hn.
  - intros a Hin. destruct (str_int_chars n a Hin) as [Hd | ->].
    + apply is_digit_not_space. exact Hd.
    + reflexivity.
Qed.

(** *** The limit on digits *)

Lemma run_digits_all (ds : string) (after_digit : bool) :
  (forall a, In a (list_ascii_of_string ds) -> is_digit a = true) ->
  ds <> "" \/ after_digit = true ->
  run_digits ds after_digit = Some (String.length ds).
Proof.
  revert after_digit. induction ds as [|a ds IH]; intros after_digit Hds Hne.
  - destruct Hne as [Hne | ->]; [congruence | reflexivity].
  - cbn [run_digits String.length].
    rewrite (Hds a) by (left; reflexivity).
    rewrite (IH true) by (try right; auto; intros b Hb; apply Hds; right; exact Hb).
    reflexivity.
Qed.

Lemma unsigned_digit (a : ascii) (t : string) :
  is_digit a = true -> unsigned (String a t) = String a t.
Proof.
  intros Ha.
  destruct a as [[] [] [] [] [] [] [] []]; try reflexivity; discriminate Ha.
Qed.

(** [int] refuses a string of more than [int_max_str_digits] digits,
    and says how many they are. *)
Lemma int_too_many_digits (ds : string) :
  (forall a, In a (list_ascii_of_string ds) -> is_digit a = true) ->
  int_max_str_digits < String.length ds ->
  int ds = Raise (too_many_digits (String.length ds)).
Proof.
  intros Hds Hlen. unfold int.
  rewrite strip_id by (intros a Ha; apply is_digit_not_space, Hds, Ha).
  destruct ds as [|a ds]; [inversion Hlen|].
  rewrite unsigned_digit by (apply Hds; left; reflexivity).
  rewrite run_digits_all by (auto; left; discriminate).
  apply Nat.ltb_lt in Hlen. rewrite Hlen. reflexivity.
Qed.

Lemma split_no_sep (sep : ascii) (t : string) :
  (forall a, In a (list_ascii_of_string t) -> a <> sep) ->
  split sep t = [t].
Proof.
  induction t as [|a t IH]; intros Hne; [reflexivity|].
  cbn [split].
  replace (Ascii.eqb a sep) with false
    by (symmetry; apply Ascii.eqb_neq, Hne; left; reflexivity).
  rewrite IH by (intros b Hb; apply Hne; right; exact Hb).
  reflexivity.
Qed.

Lemma append_nil (t : string) : "" +:+ t = t.
Proof. reflexivity. Qed.

Lemma append_cons (a : ascii) (t u : string) :
  String a t +:+ u = String a (t +:+ u).
Proof. reflexivity. Qed.

Lemma split_app_sep (sep : ascii) (t u : string) :
  (forall a, In a (list_ascii_of_string t) -> a <> sep) ->
  split sep (t +:+ String sep u) = t :: split sep u.
Proof.
  induction t as [|a t IH]; intros Hne.
  - rewrite append_nil. cbn [split]. rewrite Ascii.eqb_refl. reflexivity.
  - rewrite append_cons. cbn [split].
    replace (Ascii.eqb a sep) with false
      by (symmetry; apply Ascii.eqb_neq, Hne; left; reflexivity).
    rewrite IH by (intros b Hb; apply Hne; right; exact Hb).
    reflexivity.
Qed.

Lemma startswith_append (p t : string) : startswith (p +:+ t) p = true.
Proof.
  unfold startswith. induction p as [|a p IH].
  - rewrite append_nil. apply prefix_empty.
  - rewrite append_cons. cbn [String.prefix].
    destruct (ascii_dec a a) as [_|Hne]; [exact IH | congruence].
Qed.

Lemma split_str_int n : split ":" (PyText.str_int n) = [PyText.str_int n].
Proof.
  apply split_no_sep. intros a Hin ->.
  destruct (str_int_chars n _ Hin) as [Hd | Hd]; discriminate Hd.
Qed.

(** The pieces of an identifier made of the prefix of the class, a
    colon and the rest. *)
Lemma split_identifier c (rest : string) :
  split ":" (class_prefix c +:+ ":" +:+ rest)
  = (match c with
     | cls_device => ["rdna"]
     | cls_tf_device => ["/device"; "RDNA"]
     end ++ split ":" rest)%list.
Proof.
  destruct c; cbn [class_prefix].
  - change ("rdna" +:+ ":" +:+ rest) with ("rdna" +:+ String ":" rest).
    rewrite split_app_sep; [reflexivity|].
    intros a Hin ->. simpl in Hin. intuition discriminate.
  - change ("/device:RDNA" +:+ ":" +:+ rest)
      with ("/device" +:+ String ":" ("RDNA" +:+ String ":" rest)).
    rewrite split_app_sep.
    + rewrite split_app_sep; [reflexivity|].
      intros a Hin ->. simpl in Hin. intuition discriminate.
    + intros a Hin ->. simpl in Hin. intuition discriminate.
Qed.

End IdentifierFacts.

(** ** Constructors and instances *)
Section InstanceFacts.

Import Py Rdna Reach.
Local Open Scope py_scope.

Implicit Types (s : State) (c : pyclass) (mgr l : loc) (n : Z) (o : object).

Lemma new_object_ok c (init : gmap string Z -> result (gmap string Z))
    (d : gmap string Z) s :
  init ∅ = Ok d ->
  new_object c init s
  = (Ok (fresh (dom (heap s))),
     set_heap (<[fresh (dom (heap s)) := {| obj_class := c; obj_dict := d |}]>
                 (heap s)) s).
Proof. unfold new_object. intros ->. reflexivity. Qed.

Lemma init_good_index c (self : gmap string Z) (device_str part : string) n :
  startswith device_str (class_prefix c) = true ->
  index_part c device_str = Some part ->
  int part = Ok n ->
  match c with
  | cls_device => device__init__ self device_str
  | cls_tf_device => tf_device__init__ self device_str
  end = Ok (<["device_id" := n]> self).
Proof.
  unfold index_part. destruct c; simpl; intros Hpre Hpart Hint.
  - unfold device__init__. rewrite Hpre.
    rewrite (split_lookup_contains _ _ _ Hpart).
    rewrite (getitem_lookup _ _ _ Hpart). simpl. rewrite Hint. reflexivity.
  - unfold tf_device__init__. rewrite Hpre.
    apply lookup_lt_Some in Hpart as Hlen.
    apply Nat.ltb_lt in Hlen. rewrite Hlen.
    rewrite (getitem_lookup _ _ _ Hpart). simpl. rewrite Hint. reflexivity.
Qed.

(** What [__init__] assigns when it returns: [device_id], nothing
    else. *)
Lemma init_ok_inv c (self : gmap string Z) (device_str : string)
    (d : gmap string Z) :
  match c with
  | cls_device => device__init__ self device_str
  | cls_tf_device => tf_device__init__ self device_str
  end = Ok d ->
  exists n, d = <["device_id" := n]> self.
Proof.
  destruct c; [unfold device__init__ | unfold tf_device__init__];
    destruct (startswith _ _); try discriminate;
    match goal with |- context [if ?b then _ else _] => destruct b end;
    try (intros [= <-]; eexists; reflexivity);
    unfold rbind;
    destruct (getitem _ _) as [part|]; try discriminate;
    destruct (int part) as [n|]; try discriminate;
    intros [= <-]; eexists; reflexivity.
Qed.

Lemma construct_with_index c (device_str : string) n s :
  match c with
  | cls_device => device__init__ ∅ device_str
  | cls_tf_device => tf_device__init__ ∅ device_str
  end = Ok (<["device_id" := n]> ∅) ->
  exists l s',
    construct c device_str s = (Ok l, s') /\
    getattr l "device_id" s' = (Ok n, s').
Proof.
  intros Hinit. rewrite construct_init.
  rewrite (new_object_ok c _ _ s Hinit).
  eexists _, _. split; [reflexivity|].
  apply getattr_new. apply lookup_insert_eq.
Qed.

(** An index of more than 4300 digits is malformed: [int] refuses it,
    and so does the constructor of either class. *)
Lemma construct_too_many_digits c (ds : string) s :
  (forall a, In a (list_ascii_of_string ds) -> is_digit a = true) ->
  int_max_str_digits < String.length ds ->
  construct c (class_prefix c +:+ ":" +:+ ds) s
  = (Raise (too_many_digits (String.length ds)), s).
Proof.
  intros Hds Hlen. rewrite construct_init. apply new_object_raise.
  apply (init_bad_index c ∅ _ ds).
  - apply startswith_append.
  - unfold index_part. rewrite split_identifier, split_no_sep.
    + destruct c; reflexivity.
    + intros a Ha ->. specialize (Hds _ Ha). discriminate Hds.
  - apply int_too_many_digits; assumption.
Qed.

Example construct_4301_digits :
  construct cls_device
    ("rdna" +:+ ":" +:+ string_of_list_ascii (List.repeat "7"%char 4301))
    (state_with 1 ∅)
  = (Raise (mk_exn ValueError
              ("Exceeds the limit (4300 digits) for integer string conversion: "
               +:+ "value has 4301 digits; use sys.set_int_max_str_digits() "
               +:+ "to increase the limit")),
     state_with 1 ∅).
Proof.
  pose proof (construct_too_many_digits cls_device
                (string_of_list_ascii (List.repeat "7"%char 4301))
                (state_with 1 ∅)) as Hraise.
  assert (Hlen : String.length (string_of_list_ascii (List.repeat "7"%char 4301))
                 = 4301).
  { rewrite <- (List.repeat_length "7"%char 4301) at 2.
    generalize (List.repeat "7"%char 4301). intros l.
    induction l as [|a l IH]; [reflexivity|]. cbn. rewrite IH. reflexivity. }
  rewrite Hlen in Hraise. apply Hraise.
  - intros a. rewrite list_ascii_of_string_of_list_ascii. intros Ha.
    apply List.repeat_spec in Ha as ->. reflexivity.
  - apply Nat.ltb_lt. reflexivity.
Qed.

(** X1: the identifier a client builds from the prefix of the class, a
    colon and [str(n)] gives an instance whose [device_id] is [n], for
    every integer [n] that [str] and [int] convert, negative ones
    included. *)
Theorem construct_str_int c n s :
  (Z.abs n < 10 ^ Z.of_nat PyText.int_max_str_digits)%Z ->
  exists l s',
    construct c (class_prefix c +:+ ":" +:+ PyText.str_int n) s = (Ok l, s') /\
    getattr l "device_id" s' = (Ok n, s').
Proof.
  intros Hn. apply construct_with_index.
  apply (init_good_index c ∅ _ (PyText.str_int n) n).
  - apply startswith_append.
  - unfold index_part. rewrite split_identifier, split_str_int.
    destruct c; reflexivity.
  - apply int_str_int. exact Hn.
Qed.

Lemma construct_str_int_witness :
  exists l s',
    construct cls_tf_device ("/device:RDNA" +:+ ":" +:+ PyText.str_int (-3))
      (state_with 2 ∅) = (Ok l, s') /\
    getattr l "device_id" s' = (Ok (-3)%Z, s').
Proof.
  apply (construct_str_int cls_tf_device (-3) (state_with 2 ∅)).
  vm_compute. reflexivity.
Defined.

(** X2: the piece at the index position alone decides the device: when
    [int] reads it as [n], the constructor returns an instance with
    [device_id] [n], whatever pieces follow.  (The piece is short
    enough for the limit of CPython on digits.) *)
Theorem construct_reads_index c (device_str part : string) n s :
  startswith device_str (class_prefix c) = true ->
  index_part c device_str = Some part ->
  String.length part <= PyText.int_max_str_digits ->
  int part = Ok n ->
  exists l s',
    construct c device_str s = (Ok l, s') /\
    getattr l "device_id" s' = (Ok n, s').
Proof.
  intros Hpre Hpart _ Hint. apply construct_with_index.
  exact (init_good_index c ∅ device_str part n Hpre Hpart Hint).
Qed.

Lemma construct_reads_index_witness :
  exists l s',
    construct cls_device "rdna: +1_0 :gfx1100" (state_with 2 ∅) = (Ok l, s') /\
    getattr l "device_id" s' = (Ok 10%Z, s').
Proof.
  apply (construct_reads_index cls_device "rdna: +1_0 :gfx1100" " +1_0 " 10
           (state_with 2 ∅)); try reflexivity.
  apply Nat.leb_le. reflexivity.
Defined.

Lemma construct_raise_inv_witness :
  malformed cls_tf_device "/device:RDNA:one" /\
  exn_kind (mk_exn ValueError "invalid literal for int() with base 10: 'one'")
    = ValueError /\
  state_with 1 ∅ = state_with 1 ∅.
Proof.
  apply (construct_raise_inv cls_tf_device "/device:RDNA:one" (state_with 1 ∅)).
  reflexivity.
Defined.

(** X4: a constructor that returns makes one instance at a reference
    that was free; the instance has the class called and holds
    [device_id] only; the other instances and the rest of the state are
    as before. *)
Theorem construct_frame c (device_str : string) s l s' :
  construct c device_str s = (Ok l, s') ->
  heap s !! l = None /\
  (exists n,
     heap s' !! l
     = Some {| obj_class := c; obj_dict := {["device_id" := n]} |}) /\
  (forall l', l' <> l -> heap s' !! l' = heap s !! l') /\
  _available s' = _available s /\
  native s' = native s /\
  allocator s' = allocator s.
Proof.
  rewrite construct_init. unfold new_object.
  match goal with |- context [match ?r with Ok _ => _ | Raise _ => _ end] =>
    destruct r as [d|e] eqn:Hinit end; [|discriminate].
  intros [= <- <-].
  destruct (init_ok_inv c ∅ device_str d Hinit) as [n ->].
  split; [apply not_elem_of_dom, is_fresh|].
  split.
  - exists n. rewrite heap_set_heap, lookup_insert_eq, insert_empty. reflexivity.
  - repeat split. intros l' Hne.
    rewrite heap_set_heap. apply lookup_insert_ne. congruence.
Qed.

Lemma construct_frame_witness :
  let s := snd (device "rdna:1" (state_with 2 ∅)) in
  let l := fresh (dom (heap s)) in
  let s' := snd (tf_device "/device:RDNA:0" s) in
  heap s !! l = None /\
  (exists n,
     heap s' !! l
     = Some {| obj_class := cls_tf_device; obj_dict := {["device_id" := n]} |}) /\
  (forall l', l' <> l -> heap s' !! l' = heap s !! l') /\
  _available s' = _available s /\
  native s' = native s /\
  allocator s' = allocator s.
Proof.
  intros s l s'.
  apply (construct_frame cls_tf_device "/device:RDNA:0" s l s').
  reflexivity.
Defined.

End InstanceFacts.

(** ** Entering and leaving *)
Section ContextFacts.

Import Py Rdna Reach.
Local Open Scope py_scope.

Implicit Types (s : State) (c : pyclass) (mgr l : loc) (n : Z) (o : object).

Lemma enter_of_same c mgr :
  enter_of c mgr = device__enter__ current_device set_device mgr.
Proof. destruct c; reflexivity. Qed.

Lemma exit_of_same c mgr : exit_of c mgr = device__exit__ set_device mgr.
Proof. destruct c; reflexivity. Qed.

Lemma heap_entered mgr o s :
  heap (entered mgr o s)
  = <[mgr := {| obj_class := obj_class o;
                obj_dict := <["prev_device" := 0%Z]> (obj_dict o) |}]> (heap s).
Proof. reflexivity. Qed.

(** [__enter__] on an instance: the attribute [prev_device] is set
    first, then [device_id] is read. *)
Lemma enter_spec c mgr o s :
  heap s !! mgr = Some o ->
  enter_of c mgr s
  = match obj_dict o !! "device_id" with
    | Some _ => (Ok mgr, entered mgr o s)
    | None => (Raise (no_attribute (obj_class o) "device_id"), entered mgr o s)
    end.
Proof.
  intros Ho. rewrite enter_of_same.
  unfold device__enter__, bind, current_device, set_device, ret, setattr, getattr.
  rewrite Ho. fold (entered mgr o s).
  rewrite heap_entered, lookup_insert_eq. cbn [obj_dict].
  rewrite lookup_insert_ne by discriminate.
  destruct (obj_dict o !! "device_id"); reflexivity.
Qed.

(** [__exit__] on an instance reads [prev_device] and changes
    nothing. *)
Lemma exit_spec c mgr o s :
  heap s !! mgr = Some o ->
  exit_of c mgr s
  = match obj_dict o !! "prev_device" with
    | Some _ => (Ok tt, s)
    | None => (Raise (no_attribute (obj_class o) "prev_device"), s)
    end.
Proof.
  intros Ho. rewrite exit_of_same.
  unfold device__exit__, bind, set_device, ret, getattr. rewrite Ho.
  destruct (obj_dict o !! "prev_device"); reflexivity.
Qed.

Lemma exit_state c mgr s (r : result unit) s' :
  exit_of c mgr s = (r, s') -> s' = s.
Proof.
  rewrite exit_of_same.
  unfold device__exit__, bind, set_device, ret, getattr.
  destruct (heap s !! mgr) as [o|]; [|intros [= _ <-]; reflexivity].
  destruct (obj_dict o !! "prev_device"); intros [= _ <-]; reflexivity.
Qed.

Lemma class_of_spec mgr o s :
  heap s !! mgr = Some o -> class_of mgr s = (Ok (obj_class o), s).
Proof. unfold class_of. intros ->. reflexivity. Qed.

Lemma ctx_enter_spec mgr o s :
  heap s !! mgr = Some o ->
  ctx_enter mgr s = enter_of (obj_class o) mgr s.
Proof.
  intros Ho. unfold ctx_enter.
  rewrite (bind_ok _ _ _ _ _ (class_of_spec mgr o s Ho)). reflexivity.
Qed.

Lemma ctx_exit_spec mgr o s :
  heap s !! mgr = Some o ->
  ctx_exit mgr s = exit_of (obj_class o) mgr s.
Proof.
  intros Ho. unfold ctx_exit.
  rewrite (bind_ok _ _ _ _ _ (class_of_spec mgr o s Ho)). reflexivity.
Qed.

(** X5: [__exit__] called on an instance that was made but never
    entered raises [AttributeError], for [__init__] does not set
    [prev_device]; the state stays as it is. *)
Theorem exit_before_enter c (device_str : string) s l s' :
  construct c device_str s = (Ok l, s') ->
  ctx_exit l s' = (Raise (no_attribute c "prev_device"), s') /\
  exn_kind (no_attribute c "prev_device") = AttributeError.
Proof.
  intros Hnew. split; [|reflexivity].
  rewrite construct_init in Hnew. unfold new_object in Hnew.
  match type of Hnew with context [match ?r with Ok _ => _ | Raise _ => _ end] =>
    destruct r as [d|e] eqn:Hinit end; [|discriminate].
  injection Hnew as <- <-.
  destruct (init_ok_inv c ∅ device_str d Hinit) as [n ->].
  erewrite ctx_exit_spec by (rewrite heap_set_heap; apply lookup_insert_eq).
  erewrite exit_spec by (rewrite heap_set_heap; apply lookup_insert_eq).
  cbn [obj_dict]. rewrite lookup_insert_ne by discriminate.
  rewrite lookup_empty. reflexivity.
Qed.

Lemma exit_before_enter_witness :
  let s' := snd (device "rdna:1" (state_with 2 ∅)) in
  ctx_exit 0 s' = (Raise (no_attribute cls_device "prev_device"), s') /\
  exn_kind (no_attribute cls_device "prev_device") = AttributeError /\
  exn_msg (no_attribute cls_device "prev_device")
    = "'device' object has no attribute 'prev_device'".
Proof.
  intros s'.
  destruct (exit_before_enter cls_device "rdna:1" (state_with 2 ∅) 0 s')
    as [Hexit Hkind]; [reflexivity|].
  split; [exact Hexit|]. split; [exact Hkind | reflexivity].
Defined.

(** X6: on an instance that holds [device_id], [__enter__] returns the
    instance itself and sets [prev_device] to [0], nothing else;
    [__exit__] after it returns [None] and changes nothing, and so does
    a second [__enter__]. *)
Theorem enter_then_exit mgr o s :
  heap s !! mgr = Some o ->
  is_Some (obj_dict o !! "device_id") ->
  ctx_enter mgr s = (Ok mgr, entered mgr o s) /\
  (ctx_enter mgr ;; ctx_exit mgr) s = (Ok tt, entered mgr o s) /\
  (ctx_enter mgr ;; ctx_enter mgr) s = (Ok mgr, entered mgr o s).
Proof.
  intros Ho [d Hd].
  assert (Henter : ctx_enter mgr s = (Ok mgr, entered mgr o s)).
  { rewrite (ctx_enter_spec mgr o s Ho), (enter_spec _ mgr o s Ho), Hd.
    reflexivity. }
  assert (Ho' : heap (entered mgr o s) !! mgr
                = Some {| obj_class := obj_class o;
                          obj_dict := <["prev_device" := 0%Z]> (obj_dict o) |})
    by (rewrite heap_entered; apply lookup_insert_eq).
  split; [exact Henter|]. split.
  - rewrite (bind_ok _ _ _ _ _ Henter).
    rewrite (ctx_exit_spec _ _ _ Ho'), (exit_spec _ _ _ _ Ho').
    cbn [obj_dict]. rewrite lookup_insert_eq. reflexivity.
  - rewrite (bind_ok _ _ _ _ _ Henter).
    rewrite (ctx_enter_spec _ _ _ Ho'), (enter_spec _ _ _ _ Ho').
    cbn [obj_dict obj_class]. rewrite lookup_insert_ne by discriminate.
    rewrite Hd. f_equal.
    unfold entered, set_heap. cbn [heap _available native allocator obj_dict obj_class].
    rewrite insert_insert_eq, insert_insert_eq. reflexivity.
Qed.

Lemma enter_then_exit_witness :
  let s := snd (tf_device "/device:RDNA:1" (state_with 2 ∅)) in
  let o := {| obj_class := cls_tf_device; obj_dict := {["device_id" := 1%Z]} |} in
  ctx_enter 0 s = (Ok 0, entered 0 o s) /\
  (ctx_enter 0 ;; ctx_exit 0) s = (Ok tt, entered 0 o s) /\
  (ctx_enter 0 ;; ctx_enter 0) s = (Ok 0, entered 0 o s).
Proof.
  intros s o. apply (enter_then_exit 0 o s).
  - reflexivity.
  - exists 1%Z. reflexivity.
Defined.

(** X7: a [with] block that ends without exception had a body that
    ended without exception, with the same value: no exception of the
    body is swallowed.  The body ran on the instance itself, in the
    state [__enter__] left, and the block leaves the state the body
    left. *)
Theorem with_returns_inv {A : Type} mgr (body : loc -> M A) s (a : A) s' :
  with_stmt mgr body s = (Ok a, s') ->
  exists o,
    heap s !! mgr = Some o /\
    body mgr (entered mgr o s) = (Ok a, s').
Proof.
  unfold with_stmt, with_using, class_of.
  destruct (heap s !! mgr) as [o|] eqn:Ho; [|discriminate].
  rewrite (enter_spec _ mgr o s Ho).
  destruct (obj_dict o !! "device_id"); [|discriminate].
  destruct (body mgr (entered mgr o s)) as [[a'|e] s2] eqn:Hbody;
    destruct (exit_of (obj_class o) mgr s2) as [[[]|e'] s3] eqn:Hexit;
    try discriminate.
  intros [= <- <-]. exists o. split; [reflexivity|].
  rewrite (exit_state _ _ _ _ _ Hexit). exact Hbody.
Qed.

Lemma with_returns_inv_witness :
  let s := snd (device "rdna:1" (state_with 2 ∅)) in
  let o := {| obj_class := cls_device; obj_dict := {["device_id" := 1%Z]} |} in
  exists o',
    heap s !! 0 = Some o' /\
    memory_allocated None (entered 0 o' s) = (Ok 0%Z, entered 0 o s).
Proof.
  intros s o.
  apply (with_returns_inv 0 (fun _ => memory_allocated None) s 0%Z (entered 0 o s)).
  reflexivity.
Defined.

Lemma with_stmt_outcome_witness :
  let s := snd (device "rdna:1" (state_with 2 ∅)) in
  let o := {| obj_class := cls_device; obj_dict := {["device_id" := 1%Z]} |} in
  let boom := mk_exn RuntimeError "error inside the block" in
  with_stmt 0 (fun _ => @raise unit boom) s = (Raise boom, entered 0 o s).
Proof.
  intros s o boom.
  apply (with_stmt_outcome cls_device 0 (fun _ => @raise unit boom) s
           (entered 0 o s) (entered 0 o s) (Raise boom) 0%Z); reflexivity.
Defined.

End ContextFacts.

(** ** What sequences of calls keep *)
Section ReachFacts.

Import Py Rdna Reach.
Local Open Scope py_scope.

Implicit Types (s : State) (c : pyclass) (mgr l : loc) (n : Z) (o : object).

Lemma construct_effect c (device_str : string) s :
  call_effect s (snd (construct c device_str s)).
Proof.
  rewrite construct_init. unfold new_object.
  match goal with |- context [match ?r with Ok _ => _ | Raise _ => _ end] =>
    destruct r as [d|e] eqn:Hinit end.
  - destruct (init_ok_inv c ∅ device_str d Hinit) as [n ->].
    apply (effect_new _ _ (fresh (dom (heap s))) c n).
    + apply not_elem_of_dom, is_fresh.
    + cbn [snd]. rewrite insert_empty. reflexivity.
  - apply effect_none. reflexivity.
Qed.

Lemma ctx_enter_effect mgr s : call_effect s (snd (ctx_enter mgr s)).
Proof.
  destruct (heap s !! mgr) as [o|] eqn:Ho.
  - rewrite (ctx_enter_spec mgr o s Ho), (enter_spec _ mgr o s Ho).
    apply (effect_enter _ _ mgr o Ho).
    destruct (obj_dict o !! "device_id"); reflexivity.
  - apply effect_none. unfold ctx_enter, bind, class_of. rewrite Ho. reflexivity.
Qed.

Lemma ctx_exit_effect mgr s : call_effect s (snd (ctx_exit mgr s)).
Proof.
  apply effect_none.
  destruct (heap s !! mgr) as [o|] eqn:Ho.
  - rewrite (ctx_exit_spec mgr o s Ho).
    destruct (exit_of (obj_class o) mgr s) as [r s'] eqn:Hexit.
    exact (exit_state _ _ _ _ _ Hexit).
  - unfold ctx_exit, bind, class_of. rewrite Ho. reflexivity.
Qed.

Lemma snd_bind_ret {A : Type} (m : M A) s :
  snd ((m ;; ret tt) s) = snd (m s).
Proof. unfold bind, ret. destruct (m s) as [[a|e] s']; reflexivity. Qed.

Lemma run_call_effect (c0 : call) s : call_effect s (snd (run_call c0 s)).
Proof.
  destruct c0 as [i|str|str|mgr|mgr]; cbn [run_call].
  - apply effect_none. reflexivity.
  - rewrite snd_bind_ret. apply (construct_effect cls_device).
  - rewrite snd_bind_ret. apply (construct_effect cls_tf_device).
  - rewrite snd_bind_ret. apply ctx_enter_effect.
  - apply ctx_exit_effect.
Qed.

Lemma keeps_refl s : keeps s s.
Proof. repeat split. intros l o Ho. exists o. auto. Qed.

Lemma keeps_trans s1 s2 s3 : keeps s1 s2 -> keeps s2 s3 -> keeps s1 s3.
Proof.
  intros (Ha & Hn & Hs & Hh) (Ha' & Hn' & Hs' & Hh').
  repeat split; try congruence.
  intros l o Ho. destruct (Hh l o Ho) as (o2 & Ho2 & Hc2 & Hd2).
  destruct (Hh' l o2 Ho2) as (o3 & Ho3 & Hc3 & Hd3).
  exists o3. repeat split; congruence.
Qed.

Lemma call_effect_keeps s s' : call_effect s s' -> keeps s s'.
Proof.
  intros [-> | l c n Hfree -> | l o Ho ->].
  - apply keeps_refl.
  - repeat split. intros l' o' Ho'. exists o'.
    rewrite heap_set_heap, lookup_insert_ne by congruence. auto.
  - repeat split. intros l' o' Ho'. rewrite heap_entered.
    destruct (decide (l = l')) as [<-|Hne].
    + rewrite lookup_insert_eq. eexists. split; [reflexivity|].
      assert (o' = o) as -> by congruence.
      cbn [obj_class obj_dict]. split; [reflexivity|].
      apply lookup_insert_ne. discriminate.
    + exists o'. rewrite lookup_insert_ne by exact Hne. auto.
Qed.

Lemma call_effect_heap_ok s s' : call_effect s s' -> heap_ok s -> heap_ok s'.
Proof.
  intros [-> | l c n Hfree -> | l o Ho ->] Hok l' o'; [apply Hok | |].
  - rewrite heap_set_heap.
    destruct (decide (l = l')) as [<-|Hne].
    + rewrite lookup_insert_eq. intros [= <-]. split; cbn [obj_dict].
      * exists n. apply lookup_singleton_eq.
      * left. apply lookup_singleton_ne. discriminate.
    + rewrite lookup_insert_ne by exact Hne. apply Hok.
  - rewrite heap_entered.
    destruct (decide (l = l')) as [<-|Hne].
    + rewrite lookup_insert_eq. intros [= <-]. split; cbn [obj_dict].
      * rewrite lookup_insert_ne by discriminate. apply (Hok l o Ho).
      * right. apply lookup_insert_eq.
    + rewrite lookup_insert_ne by exact Hne. apply Hok.
Qed.

(** X9: whatever calls of [set_device], of the constructors, of
    [__enter__] and of [__exit__] a client makes, succeeding or not,
    the global [_available], the extension module and the statistics of
    its allocator stay the same, and every instance stays, with its
    class and its [device_id]. *)
Theorem run_calls_keeps (cs : list call) s : keeps s (run_calls cs s).
Proof.
  revert s. induction cs as [|c0 cs IH]; intros s; cbn [run_calls].
  - apply keeps_refl.
  - eapply keeps_trans; [|apply IH].
    apply call_effect_keeps, run_call_effect.
Qed.

Lemma heap_ok_empty s : heap s = ∅ -> heap_ok s.
Proof. intros Hs l o. rewrite Hs, lookup_empty. discriminate. Qed.

Lemma run_calls_heap_ok (cs : list call) s :
  heap_ok s -> heap_ok (run_calls cs s).
Proof.
  revert s. induction cs as [|c0 cs IH]; intros s Hok; cbn [run_calls];
    [exact Hok|].
  apply IH. exact (call_effect_heap_ok _ _ (run_call_effect c0 s) Hok).
Qed.

(** X10: in every state that calls reach after the import, each
    instance holds [device_id], and its [prev_device], if it has one,
    is [0]. *)
Theorem reachable_heap_ok (nat0 : Native) (stats : gmap Z AllocatorStats)
    (out : list string) (cs : list call) s :
  import_module nat0 stats = (Ok s, out) ->
  heap_ok (run_calls cs s).
Proof.
  intros Himport. apply run_calls_heap_ok.
  revert Himport. unfold import_module.
  destruct (rdna_py_import nat0) as [[]|e0]; [|discriminate].
  destruct (_check_availability nat0) as [[b|e] out']; [|discriminate].
  intros [= <- _]. apply heap_ok_empty. reflexivity.
Qed.

Lemma reachable_heap_ok_witness :
  heap_ok (run_calls [call_device "rdna:1"; call_enter 0; call_set_device 3;
                      call_tf_device "/device:RDNA"; call_exit 0]
             (state_with 2 ∅)).
Proof.
  apply (reachable_heap_ok (native_with 2) ∅ []). reflexivity.
Defined.

(** X11: where each instance holds [device_id] and a [prev_device]
    that is [0] or missing, as after the import and any calls,
    [__enter__] on an instance does not raise, and [__exit__] raises at
    most the [AttributeError] of an instance that was never entered. *)
Theorem enter_total_when_ok mgr o s :
  heap_ok s ->
  heap s !! mgr = Some o ->
  ctx_enter mgr s = (Ok mgr, entered mgr o s) /\
  (ctx_exit mgr s = (Ok tt, s) \/
   obj_dict o !! "prev_device" = None /\
   ctx_exit mgr s = (Raise (no_attribute (obj_class o) "prev_device"), s)).
Proof.
  intros Hok Ho. destruct (Hok mgr o Ho) as [[d Hd] Hprev].
  split.
  - rewrite (ctx_enter_spec mgr o s Ho), (enter_spec _ mgr o s Ho), Hd.
    reflexivity.
  - rewrite (ctx_exit_spec mgr o s Ho), (exit_spec _ mgr o s Ho).
    destruct Hprev as [-> | ->]; [right | left]; auto.
Qed.

Lemma enter_total_when_ok_witness :
  let s := run_calls [call_device "rdna:1"] (state_with 2 ∅) in
  let o := {| obj_class := cls_device; obj_dict := {["device_id" := 1%Z]} |} in
  ctx_enter 0 s = (Ok 0, entered 0 o s) /\
  (ctx_exit 0 s = (Ok tt, s) \/
   obj_dict o !! "prev_device" = None /\
   ctx_exit 0 s = (Raise (no_attribute cls_device "prev_device"), s)).
Proof.
  intros s o. apply (enter_total_when_ok 0 o s).
  - apply run_calls_heap_ok, heap_ok_empty. reflexivity.
  - reflexivity.
Defined.

End ReachFacts.

(** ** The import, once more *)
Section ImportFacts.

Import Py Rdna.

(** X12: an exception of the probe, or of [initialize()] after a probe
    that reported a device, is caught when it derives from [Exception]:
    [_check_availability()] then returns [False] and prints one warning
    that ends with the message of the exception.  [KeyboardInterrupt]
    and [SystemExit] pass through, and nothing is printed. *)
Theorem check_availability_handles (n : Native) (e : exn) :
  rdna_py_is_available n = Raise e \/
  (rdna_py_is_available n = Ok true /\ rdna_py_initialize n = Raise e) ->
  _check_availability n
  = if is_Exception e
    then (Ok false, ["Warning: Failed to initialize RDNA stack: " +:+ exn_msg e])
    else (Raise e, []).
Proof.
  unfold _check_availability. intros [-> | [-> ->]]; reflexivity.
Qed.

Lemma check_availability_handles_witness :
  _check_availability native_init_fails
  = (Ok false,
     ["Warning: Failed to initialize RDNA stack: HIP runtime not found"]).
Proof.
  apply (check_availability_handles native_init_fails
           (mk_exn RuntimeError "HIP runtime not found")).
  right. split; reflexivity.
Defined.

(** X13: the import fails in two ways, both without output: with the
    exception of [from .rdna_py import *], of whatever class (the
    [ImportError] of an extension that is not built derives from
    [Exception], and the callers catch it); or, that statement done,
    with an exception of the probe or of [initialize()] that does not
    derive from [Exception].  Otherwise it succeeds; then it printed
    nothing when [_available] is [True], and exactly one line, a
    warning, when [_available] is [False]. *)
Theorem import_warns_iff_unavailable (n : Native)
    (stats : gmap Z AllocatorStats) :
  match import_module n stats with
  | (Ok s, out) =>
      rdna_py_import n = Ok tt /\
      if _available s then out = []
      else exists line, out = [line] /\ startswith line "Warning: " = true
  | (Raise e, out) =>
      out = [] /\
      (rdna_py_import n = Raise e \/
       rdna_py_import n = Ok tt /\ is_Exception e = false /\
       (rdna_py_is_available n = Raise e \/
        rdna_py_is_available n = Ok true /\ rdna_py_initialize n = Raise e))
  end.
Proof.
  unfold import_module, _check_availability.
  destruct (rdna_py_import n) as [[]|e0]; [|split; [reflexivity | left; reflexivity]].
  destruct (rdna_py_is_available n) as [[|]|e];
    [destruct (rdna_py_initialize n) as [[]|e] | |];
    try destruct (is_Exception e) eqn:He; cbn [_available];
    try (split; reflexivity);
    try (split; [reflexivity|]; eexists; split; reflexivity);
    try (split; [reflexivity|]; right; split; [reflexivity|];
         split; [exact He|]; auto);
    (split; [reflexivity|]; eexists; split; [reflexivity|];
     exact (startswith_append "Warning: "
              ("Failed to initialize RDNA stack: " +:+ exn_msg e))).
Qed.

(** Without the extension module the import of the package fails with
    the [ImportError] of line 8, which derives from [Exception];
    nothing is printed. *)
Lemma import_without_extension (stats : gmap Z AllocatorStats) :
  import_module native_absent stats
  = (Raise (mk_exn ImportError "No module named 'rdna.rdna_py'"), []) /\
  is_Exception (mk_exn ImportError "No module named 'rdna.rdna_py'") = true.
Proof. split; reflexivity. Qed.

End ImportFacts.

(** ** setup.py *)
Section SetupFacts.

Import Py PyText Setup.

Implicit Types (drop : ascii -> bool) (t u v w : string) (a : ascii).

Lemma flush_nonempty w t : w <> "" -> split_from w t <> [].
Proof.
  revert w. induction t as [|a t IH]; intros w Hw; cbn [split_from].
  - destruct w; [congruence | discriminate].
  - destruct (isspace a).
    + destruct w; [congruence | discriminate].
    + apply IH. destruct w; discriminate.
Qed.

Lemma split_from_nonempty w t :
  lstrip_with isspace t <> "" -> split_from w t <> [].
Proof.
  revert w. induction t as [|a t IH]; intros w Ht; cbn [split_from].
  - simpl in Ht. congruence.
  - cbn [lstrip_with] in Ht. destruct (isspace a).
    + destruct w; [apply IH, Ht | discriminate].
    + apply flush_nonempty. destruct w; discriminate.
Qed.

Lemma rstrip_with_keep drop a t :
  drop a = false ->
  rstrip_with drop (String a t) = String a (rstrip_with drop t).
Proof.
  intros Ha. cbn [rstrip_with]. rewrite Ha.
  destruct (rstrip_with drop t); reflexivity.
Qed.

Lemma rstrip_with_empty drop t :
  rstrip_with drop t <> "" -> t <> "".
Proof. intros Hr ->. apply Hr. reflexivity. Qed.

Lemma startswith_nonempty t : startswith t "set(RDNA_STACK_VERSION" = true -> t <> "".
Proof. intros Ht ->. discriminate Ht. Qed.

Lemma getitem_last_nonempty {A : Type} (l : list A) :
  l <> [] -> exists x, getitem_last l = Ok x /\ last l = Some x.
Proof.
  intros Hl. unfold getitem_last.
  destruct (last l) as [x|] eqn:Hlast; [eauto|].
  apply last_None in Hlast. contradiction.
Qed.

(** A line that sets the version has a last word. *)
Lemma version_line_word (line : string) :
  startswith (strip line) "set(RDNA_STACK_VERSION" = true ->
  exists word, getitem_last (split_ws line) = Ok word /\
               last (split_ws line) = Some word.
Proof.
  intros Hline. apply getitem_last_nonempty, split_from_nonempty.
  apply (rstrip_with_empty isspace). apply startswith_nonempty. exact Hline.
Qed.

Lemma scan_version_total (lines : list string) :
  exists found, scan_version lines = Ok found.
Proof.
  induction lines as [|line rest IH]; cbn [scan_version]; [eauto|].
  destruct (startswith (strip line) "set(RDNA_STACK_VERSION") eqn:Hline;
    [|exact IH].
  destruct (version_line_word line Hline) as (word & -> & _). simpl. eauto.
Qed.

(** The loop ends without [return] exactly when no line sets the
    version. *)
Lemma scan_version_none (lines : list string) :
  scan_version lines = Ok None <->
  Forall (fun l => startswith (strip l) "set(RDNA_STACK_VERSION" = false) lines.
Proof.
  induction lines as [|line rest IH]; cbn [scan_version].
  - split; [constructor | reflexivity].
  - destruct (startswith (strip line) "set(RDNA_STACK_VERSION") eqn:Hline.
    + destruct (version_line_word line Hline) as (word & -> & _). cbn [rbind].
      split; [discriminate|]. intros Hall.
      apply Forall_cons in Hall as [Hl _]. congruence.
    + rewrite IH. split; [intros Hrest; constructor; assumption|].
      intros Hall. apply Forall_cons in Hall as [_ Hrest]. exact Hrest.
Qed.

(** X14: [get_version()] raises only what the file raises: the
    exception of [exists()] or of [open], or the exception that stops
    the reading before a line set the version.  No content raises: the
    line that sets the version always has a last word, so that the
    index [-1] is in range, and a file that is missing or is read to its
    end gives a version. *)
Theorem get_version_total (cmake_file : text_file) (e : exn) :
  get_version cmake_file = Raise e <->
  cmake_file = unopenable e \/
  exists lines,
    cmake_file = readable lines (Some e) /\
    Forall (fun l => startswith (strip l) "set(RDNA_STACK_VERSION" = false)
      lines.
Proof.
  destruct cmake_file as [|e0|lines stop]; cbn [get_version].
  - split; [discriminate|]. intros [Hf | (lines & Hf & _)]; discriminate.
  - split.
    + intros [= ->]. left. reflexivity.
    + intros [[= ->] | (lines & Hf & _)]; [reflexivity | discriminate].
  - destruct (scan_version_total lines) as [[version|] Hscan].
    + rewrite Hscan. cbn [rbind].
      split; [discriminate|]. intros [Hf | (lines' & [= <- _] & Hall)];
        [discriminate|].
      apply scan_version_none in Hall. congruence.
    + rewrite Hscan. cbn [rbind]. destruct stop as [e1|].
      * split.
        -- intros [= ->]. right. exists lines. split; [reflexivity|].
           apply scan_version_none. exact Hscan.
        -- intros [Hf | (lines' & [= _ ->] & _)]; [discriminate | reflexivity].
      * split; [discriminate|].
        intros [Hf | (lines' & Hf & _)]; discriminate.
Qed.

(** A file that cannot be decoded from its first line on stops
    [get_version()] with the [UnicodeDecodeError] of the iteration; a
    directory of that name stops it in [open]; with a line that sets
    the version before the bytes that do not decode, the version is
    returned and the rest is not read. *)
Lemma get_version_file_errors :
  let decode := mk_exn UnicodeDecodeError
                  "'utf-8' codec can't decode byte 0xff in position 0: invalid start byte" in
  let directory := mk_exn OSError "[Errno 21] Is a directory: 'CMakeLists.txt'" in
  get_version (readable [] (Some decode)) = Raise decode /\
  get_version (unopenable directory) = Raise directory /\
  get_version (readable ["set(RDNA_STACK_VERSION 0.2.0)"] (Some decode))
  = Ok "0.2.0".
Proof. repeat split. Qed.

(** X15: the first line that sets the version decides: the lines
    before it that do not set it are skipped, the lines after it are
    not read, and an error that would stop the reading later is not
    met. *)
Theorem get_version_first_match (before after : list string) (line : string) :
  Forall (fun l => startswith (strip l) "set(RDNA_STACK_VERSION" = false) before ->
  startswith (strip line) "set(RDNA_STACK_VERSION" = true ->
  forall stop : option exn,
    get_version (readable (before ++ line :: after)%list stop)
    = get_version (readable [line] None).
Proof.
  intros Hbefore Hline stop. cbn [get_version].
  assert (Hscan : scan_version (before ++ line :: after)%list
                  = scan_version [line]).
  { induction Hbefore as [|l before Hl _ IH]; cbn [app scan_version].
    - rewrite Hline. reflexivity.
    - rewrite Hl. exact IH. }
  rewrite Hscan. cbn [scan_version]. rewrite Hline.
  destruct (version_line_word line Hline) as (word & -> & _). reflexivity.
Qed.

Lemma get_version_first_match_witness :
  get_version (readable ["project(rdna_stack)"; "set(RDNA_STACK_VERSION 0.2.0)";
                         "set(RDNA_STACK_VERSION 9.9.9)"] None)
  = get_version (readable ["set(RDNA_STACK_VERSION 0.2.0)"] None).
Proof.
  apply (get_version_first_match ["project(rdna_stack)"]
           ["set(RDNA_STACK_VERSION 9.9.9)"] "set(RDNA_STACK_VERSION 0.2.0)").
  - repeat constructor.
  - reflexivity.
Defined.

(** Without the file, and with a file no line of which sets the
    version, the version is the default. *)
Lemma get_version_default (lines : list string) :
  Forall (fun l => startswith (strip l) "set(RDNA_STACK_VERSION" = false) lines ->
  get_version missing = Ok "0.1.0" /\
  get_version (readable lines None) = Ok "0.1.0".
Proof.
  intros Hlines. split; [reflexivity|]. cbn [get_version].
  apply scan_version_none in Hlines. rewrite Hlines. reflexivity.
Qed.

(** *** The line that sets the version *)

Lemma append_nil_r t : t +:+ "" = t.
Proof.
  induction t as [|a t IH]; [reflexivity|]. rewrite append_cons, IH. reflexivity.
Qed.

Lemma append_assoc t u v : (t +:+ u) +:+ v = t +:+ (u +:+ v).
Proof.
  induction t as [|a t IH]; [reflexivity|]. rewrite !append_cons, IH. reflexivity.
Qed.

Lemma all_chars_cons (p : ascii -> bool) a t :
  all_chars p (String a t) <-> p a = true /\ all_chars p t.
Proof.
  unfold all_chars. simpl. split.
  - intros H. split; [apply H; left; reflexivity|].
    intros c Hc. apply H. right. exact Hc.
  - intros [Ha Ht] c [<- | Hc]; [exact Ha | exact (Ht c Hc)].
Qed.

Lemma all_chars_nil (p : ascii -> bool) : all_chars p "".
Proof. intros c []. Qed.

Lemma all_chars_app (p : ascii -> bool) t u :
  all_chars p t -> all_chars p u -> all_chars p (t +:+ u).
Proof.
  induction t as [|a t IH]; intros Ht Hu; [exact Hu|].
  rewrite append_cons. apply all_chars_cons in Ht as [Ha Ht].
  apply all_chars_cons. split; [exact Ha | exact (IH Ht Hu)].
Qed.

Lemma lstrip_with_app drop u t :
  all_chars drop u -> lstrip_with drop (u +:+ t) = lstrip_with drop t.
Proof.
  induction u as [|a u IH]; intros Hu; [reflexivity|].
  apply all_chars_cons in Hu as [Ha Hu].
  rewrite append_cons. cbn [lstrip_with]. rewrite Ha. exact (IH Hu).
Qed.

Lemma rstrip_with_app_keep drop u t :
  all_chars (fun c => negb (drop c)) u ->
  rstrip_with drop (u +:+ t) = u +:+ rstrip_with drop t.
Proof.
  induction u as [|a u IH]; intros Hu; [reflexivity|].
  apply all_chars_cons in Hu as [Ha Hu]. apply negb_true_iff in Ha.
  rewrite !append_cons, rstrip_with_keep by exact Ha.
  rewrite (IH Hu). reflexivity.
Qed.

Lemma rstrip_with_all drop t : all_chars drop t -> rstrip_with drop t = "".
Proof.
  induction t as [|a t IH]; intros Ht; [reflexivity|].
  apply all_chars_cons in Ht as [Ha Ht].
  cbn [rstrip_with]. rewrite (IH Ht), Ha. reflexivity.
Qed.

Lemma split_from_word w u t :
  all_chars (fun c => negb (isspace c)) u ->
  split_from w (u +:+ t) = split_from (w +:+ u) t.
Proof.
  revert w. induction u as [|a u IH]; intros w Hu.
  - rewrite append_nil, append_nil_r. reflexivity.
  - apply all_chars_cons in Hu as [Ha Hu]. apply negb_true_iff in Ha.
    rewrite append_cons. cbn [split_from]. rewrite Ha, (IH _ Hu).
    rewrite append_assoc. reflexivity.
Qed.

Lemma split_from_spaces u t :
  all_chars isspace u -> split_from "" (u +:+ t) = split_from "" t.
Proof.
  induction u as [|a u IH]; intros Hu; [reflexivity|].
  apply all_chars_cons in Hu as [Ha Hu].
  rewrite append_cons. cbn [split_from]. rewrite Ha. exact (IH Hu).
Qed.

Lemma split_from_flush w a t :
  isspace a = true -> w <> "" ->
  split_from w (String a t) = w :: split_from "" t.
Proof.
  intros Ha Hw. cbn [split_from]. rewrite Ha.
  destruct w; [congruence | reflexivity].
Qed.

Lemma split_from_end w t :
  all_chars isspace t -> w <> "" -> split_from w t = [w].
Proof.
  intros Ht Hw. destruct t as [|a t].
  - cbn [split_from]. destruct w; [congruence | reflexivity].
  - apply all_chars_cons in Ht as [Ha Ht].
    rewrite (split_from_flush w a t Ha Hw). f_equal.
    rewrite <- (append_nil_r t), (split_from_spaces t "" Ht). reflexivity.
Qed.

Lemma variable_no_space :
  all_chars (fun c => negb (isspace c)) "set(RDNA_STACK_VERSION".
Proof.
  intros c Hin. simpl in Hin.
  repeat (destruct Hin as [<- | Hin]; [reflexivity|]). destruct Hin.
Qed.

Lemma version_char_spec a :
  version_char a = true -> isspace a = false /\ char_in ")" a = false.
Proof.
  unfold version_char. intros H. apply andb_true_iff in H as [Hs Hp].
  apply negb_true_iff in Hs, Hp. split; [exact Hs|].
  cbn [char_in]. rewrite Hp. reflexivity.
Qed.

Lemma version_no_space v :
  all_chars version_char v -> all_chars (fun c => negb (isspace c)) v.
Proof.
  intros Hv c Hc. apply negb_true_iff. apply (version_char_spec c (Hv c Hc)).
Qed.

Lemma version_no_paren v :
  all_chars version_char v -> all_chars (fun c => negb (char_in ")" c)) v.
Proof.
  intros Hv c Hc. apply negb_true_iff. apply (version_char_spec c (Hv c Hc)).
Qed.

Lemma version_line_strip indent gap version trail :
  all_chars isspace indent ->
  startswith (strip (version_line indent gap version trail))
    "set(RDNA_STACK_VERSION" = true.
Proof.
  intros Hindent. unfold strip, version_line.
  rewrite (lstrip_with_app isspace indent _ Hindent).
  replace (lstrip_with isspace
             ("set(RDNA_STACK_VERSION" +:+ gap +:+ version +:+ ")" +:+ trail))
    with ("set(RDNA_STACK_VERSION" +:+ gap +:+ version +:+ ")" +:+ trail)
    by reflexivity.
  rewrite (rstrip_with_app_keep isspace _ _ variable_no_space).
  apply startswith_append.
Qed.

Lemma version_line_words indent gap version trail :
  all_chars isspace indent ->
  all_chars isspace gap -> gap <> "" ->
  all_chars isspace trail ->
  all_chars version_char version ->
  split_ws (version_line indent gap version trail)
  = ["set(RDNA_STACK_VERSION"; version +:+ ")"].
Proof.
  intros Hindent Hgap Hgap0 Htrail Hversion. unfold split_ws, version_line.
  rewrite (split_from_spaces indent _ Hindent).
  rewrite (split_from_word "" _ _ variable_no_space), append_nil.
  destruct gap as [|g gap]; [congruence|].
  apply all_chars_cons in Hgap as [Hg Hgap].
  rewrite append_cons, split_from_flush by (exact Hg || discriminate).
  rewrite (split_from_spaces gap _ Hgap).
  rewrite <- append_assoc.
  rewrite split_from_word, append_nil.
  - rewrite split_from_end; [reflexivity | exact Htrail |].
    destruct version; discriminate.
  - apply all_chars_app; [exact (version_no_space _ Hversion)|].
    intros c [<- | []]. reflexivity.
Qed.

Lemma strip_chars_version version :
  all_chars version_char version ->
  strip_chars ")" (version +:+ ")") = version.
Proof.
  intros Hversion. unfold strip_chars.
  destruct version as [|a v]; [reflexivity|].
  assert (Hl : lstrip_with (char_in ")") (String a v +:+ ")")
               = String a v +:+ ")").
  { apply all_chars_cons in Hversion as [Ha _].
    rewrite append_cons. cbn [lstrip_with].
    rewrite (proj2 (version_char_spec a Ha)). reflexivity. }
  rewrite Hl, (rstrip_with_app_keep _ _ _ (version_no_paren _ Hversion)).
  apply append_nil_r.
Qed.

(** X16: from a file whose first line to set the version is
    [set(RDNA_STACK_VERSION v)], with white space before the command,
    between the name and [v] and after the parenthesis, [get_version()]
    returns [v], for every [v] without white space and without closing
    parenthesis, the empty one included, whatever follows the line. *)
Theorem get_version_reads_line (indent gap version trail : string) :
  all_chars isspace indent ->
  all_chars isspace gap -> gap <> "" ->
  all_chars isspace trail ->
  all_chars version_char version ->
  forall (rest : list string) (stop : option exn),
    get_version (readable (version_line indent gap version trail :: rest) stop)
    = Ok version.
Proof.
  intros Hindent Hgap Hgap0 Htrail Hversion rest stop.
  cbn [get_version scan_version].
  rewrite (version_line_strip indent gap version trail Hindent).
  rewrite (version_line_words indent gap version trail
             Hindent Hgap Hgap0 Htrail Hversion).
  cbn [getitem_last last rbind].
  rewrite (strip_chars_version version Hversion). reflexivity.
Qed.

Lemma get_version_reads_line_witness :
  get_version
    (readable [version_line "  " " " "0.2.0-rc1" (String (ascii_of_nat 10) "")]
       None)
  = Ok "0.2.0-rc1".
Proof.
  refine (get_version_reads_line "  " " " "0.2.0-rc1"
            (String (ascii_of_nat 10) "") _ _ _ _ _ [] None).
  - intros c Hin. simpl in Hin.
    repeat (destruct Hin as [<- | Hin]; [reflexivity|]). destruct Hin.
  - intros c Hin. simpl in Hin.
    repeat (destruct Hin as [<- | Hin]; [reflexivity|]). destruct Hin.
  - discriminate.
  - intros c Hin. simpl in Hin.
    repeat (destruct Hin as [<- | Hin]; [reflexivity|]). destruct Hin.
  - intros c Hin. simpl in Hin.
    repeat (destruct Hin as [<- | Hin]; [reflexivity|]). destruct Hin.
Defined.

(** *** The shape of the version *)

Lemma split_from_no_space w t x :
  all_chars (fun c => negb (isspace c)) w ->
  x ∈ split_from w t ->
  all_chars (fun c => negb (isspace c)) x.
Proof.
  revert w. induction t as [|a t IH]; intros w Hw Hx; cbn [split_from] in Hx.
  - destruct w; [inversion Hx|]. apply list_elem_of_singleton in Hx as ->.
    exact Hw.
  - destruct (isspace a) eqn:Ha.
    + destruct w as [|b w].
      * exact (IH "" (all_chars_nil _) Hx).
      * apply elem_of_cons in Hx as [-> | Hx]; [exact Hw|].
        exact (IH "" (all_chars_nil _) Hx).
    + apply (IH (w +:+ String a "")); [|exact Hx].
      apply all_chars_app; [exact Hw|].
      intros c [<- | []]. rewrite Ha. reflexivity.
Qed.

Lemma lstrip_with_incl drop t c :
  In c (list_ascii_of_string (lstrip_with drop t)) ->
  In c (list_ascii_of_string t).
Proof.
  induction t as [|a t IH]; [intros []|]. cbn [lstrip_with].
  destruct (drop a); [|exact (fun H => H)].
  intros Hin. right. exact (IH Hin).
Qed.

Lemma rstrip_with_incl drop t c :
  In c (list_ascii_of_string (rstrip_with drop t)) ->
  In c (list_ascii_of_string t).
Proof.
  induction t as [|a t IH]; [intros []|]. cbn [rstrip_with].
  destruct (rstrip_with drop t) as [|b r].
  - destruct (drop a); [intros [] | intros [<- | []]; left; reflexivity].
  - intros [<- | Hin]; [left; reflexivity | right; exact (IH Hin)].
Qed.

Lemma lstrip_with_head drop t :
  lstrip_with drop t = "" \/
  exists a r, lstrip_with drop t = String a r /\ drop a = false.
Proof.
  induction t as [|a t IH]; [left; reflexivity|]. cbn [lstrip_with].
  destruct (drop a) eqn:Ha; [exact IH|]. right. eauto.
Qed.

Lemma rstrip_with_idem drop t :
  rstrip_with drop (rstrip_with drop t) = rstrip_with drop t.
Proof.
  induction t as [|a t IH]; [reflexivity|]. cbn [rstrip_with].
  destruct (rstrip_with drop t) as [|b r] eqn:Hr.
  - destruct (drop a) eqn:Ha; [reflexivity|].
    cbn [rstrip_with]. rewrite Ha. reflexivity.
  - cbn [rstrip_with]. cbn [rstrip_with] in IH. rewrite IH. reflexivity.
Qed.

Lemma strip_chars_idem chars t :
  strip_chars chars (strip_chars chars t) = strip_chars chars t.
Proof.
  unfold strip_chars.
  destruct (lstrip_with_head (char_in chars) t) as [-> | (a & r & -> & Ha)];
    [reflexivity|].
  rewrite (rstrip_with_keep _ a r Ha). cbn [lstrip_with]. rewrite Ha.
  rewrite <- (rstrip_with_keep _ a r Ha). apply rstrip_with_idem.
Qed.

(** X17: the version [get_version()] returns, from the file or by
    default, holds no white space, and no closing parenthesis is left
    at either end of it. *)
Theorem get_version_shape (cmake_file : text_file) (version : string) :
  get_version cmake_file = Ok version ->
  all_chars (fun c => negb (isspace c)) version /\
  strip_chars ")" version = version.
Proof.
  assert (Hdefault : all_chars (fun c => negb (isspace c)) "0.1.0" /\
                     strip_chars ")" "0.1.0" = "0.1.0").
  { split; [|reflexivity]. intros c Hin. simpl in Hin.
    repeat (destruct Hin as [<- | Hin]; [reflexivity|]). destruct Hin. }
  destruct cmake_file as [|e|lines stop]; cbn [get_version];
    [intros [= <-]; exact Hdefault | discriminate |].
  induction lines as [|line rest IH]; cbn [scan_version rbind];
    [destruct stop; [discriminate | intros [= <-]; exact Hdefault]|].
  destruct (startswith (strip line) "set(RDNA_STACK_VERSION") eqn:Hline;
    [|exact IH].
  destruct (version_line_word line Hline) as (word & -> & Hlast).
  cbn [rbind]. intros [= <-]. split; [|apply strip_chars_idem].
  intros c Hin. unfold strip_chars in Hin.
  apply rstrip_with_incl, lstrip_with_incl in Hin.
  apply last_Some_elem_of in Hlast.
  exact (split_from_no_space "" line word (all_chars_nil _) Hlast c Hin).
Qed.

Lemma get_version_shape_witness :
  all_chars (fun c => negb (isspace c)) "(1.2" /\
  strip_chars ")" "(1.2" = "(1.2".
Proof.
  apply (get_version_shape (readable ["set(RDNA_STACK_VERSION (1.2))"] None)).
  reflexivity.
Defined.

End SetupFacts.

(** ** examples/basic_usage.py *)
Section BasicUsageFacts.

Import Py Rdna Reach BasicUsage.
Local Open Scope io_scope.

Implicit Types (s : State) (out : list string) (w : world).

(** The [with] statement of the script is the one of the module when
    the body is a computation of the module. *)
Lemma with_io_with_stmt {A : Type} (mgr : loc) (body : loc -> M A) s out :
  with_io mgr (fun v => invoke (body v)) (s, out)
  = (fst (with_stmt mgr body s), (snd (with_stmt mgr body s), out)).
Proof.
  unfold with_io, with_stmt, with_using, invoke. cbn [fst snd].
  destruct (class_of mgr s) as [[c|e] s0]; [|reflexivity].
  cbn [fst snd].
  destruct (enter_of c mgr s0) as [[v|e] s1]; [|reflexivity].
  cbn [fst snd].
  destruct (body v s1) as [[a|e] s2]; cbn [fst snd];
    destruct (exit_of c mgr s2) as [[[]|e'] s3]; reflexivity.
Qed.

Lemma range_nonpos (n : Z) : (n <= 0)%Z -> range n = [].
Proof.
  intros Hn. unfold range.
  replace (Z.to_nat n) with 0%nat by lia. reflexivity.
Qed.

Lemma range_pos (n : Z) :
  (0 < n)%Z -> exists rest, range n = 0%Z :: rest.
Proof.
  intros Hn. unfold range.
  destruct (Z.to_nat n) as [|k] eqn:Hk; [lia|].
  cbn [List.seq List.map]. eauto.
Qed.

(** X18: [demonstrate_device_discovery()] prints its title and the
    availability; without availability it prints that no device was
    found and returns.  With it, it prints the number of devices, and
    returns when that number is not positive; when it is positive, the
    first round of the loop raises [AttributeError], for the
    properties are a dictionary and [props.name] is no entry lookup:
    no device is ever listed.  (The number of devices is one [str]
    converts.) *)
Theorem discovery_outcome (more : Z -> gmap string pyval -> IO unit) s out :
  (Z.abs (rdna_py_device_count (native s))
   < 10 ^ Z.of_nat PyText.int_max_str_digits)%Z ->
  demonstrate_device_discovery more (s, out)
  = let count := rdna_py_device_count (native s) in
    let title := newline +:+ "=== Device Discovery ===" in
    if _available s then
      let printed :=
        (out ++ [title; "RDNA available: True";
                 "Number of RDNA devices: " +:+ PyText.str_int count])%list in
      if (0 <? count)%Z then
        (Raise (mk_exn AttributeError "'dict' object has no attribute 'name'"),
         (s, printed))
      else (Ok tt, (s, printed))
    else
      (Ok tt,
       (s, (out ++ [title; "RDNA available: False";
                    "No RDNA devices found. Running in simulation mode."])%list)).
Proof.
  intros _.
  unfold demonstrate_device_discovery, io_bind, print, invoke, is_available,
    device_count.
  cbn [fst snd]. destruct (_available s); cbn [negb PyText.str_bool fst snd].
  - rewrite <- !app_assoc. cbn [app].
    destruct (0 <? rdna_py_device_count (native s))%Z eqn:Hcount.
    + apply Z.ltb_lt in Hcount. destruct (range_pos _ Hcount) as [rest ->].
      reflexivity.
    + apply Z.ltb_ge in Hcount. rewrite (range_nonpos _ Hcount). reflexivity.
  - rewrite <- !app_assoc. reflexivity.
Qed.

Lemma discovery_outcome_witness :
  demonstrate_device_discovery (fun _ _ => io_ret tt) (state_with 2 ∅, [])
  = (Raise (mk_exn AttributeError "'dict' object has no attribute 'name'"),
     (state_with 2 ∅,
      [newline +:+ "=== Device Discovery ==="; "RDNA available: True";
       "Number of RDNA devices: 2"])).
Proof.
  apply (discovery_outcome (fun _ _ => io_ret tt) (state_with 2 ∅) []).
  vm_compute. reflexivity.
Defined.

Lemma device_zero s :
  device "rdna:0" s
  = (Ok (fresh (dom (heap s))),
     set_heap (<[fresh (dom (heap s)) :=
                   {| obj_class := cls_device;
                      obj_dict := <["device_id" := 0%Z]> ∅ |}]> (heap s)) s).
Proof. apply new_object_ok. reflexivity. Qed.

Lemma tf_device_zero s :
  tf_device "/device:RDNA:0" s
  = (Ok (fresh (dom (heap s))),
     set_heap (<[fresh (dom (heap s)) :=
                   {| obj_class := cls_tf_device;
                      obj_dict := <["device_id" := 0%Z]> ∅ |}]> (heap s)) s).
Proof. apply new_object_ok. reflexivity. Qed.

(** The block of both style demonstrations: a new instance for device
    0, entered, one line printed, left. *)
Lemma with_new_instance c (line : string) s out :
  let l := fresh (dom (heap s)) in
  let o := {| obj_class := c; obj_dict := <["device_id" := 0%Z]> ∅ |} in
  let s1 := set_heap (<[l := o]> (heap s)) s in
  with_io l (fun _ => print line) (s1, out)
  = (Ok tt, (entered l o s1, (out ++ [line])%list)).
Proof.
  intros l o s1.
  assert (Ho : heap s1 !! l = Some o) by apply lookup_insert_eq.
  assert (Ho' : heap (entered l o s1) !! l
                = Some {| obj_class := c;
                          obj_dict := <["prev_device" := 0%Z]> (obj_dict o) |})
    by (rewrite heap_entered; apply lookup_insert_eq).
  unfold with_io, invoke. cbn [fst snd].
  rewrite (class_of_spec l o s1 Ho). cbn [fst snd].
  rewrite (enter_spec (obj_class o) l o s1 Ho).
  replace (obj_dict o !! "device_id") with (Some 0%Z)
    by (symmetry; apply lookup_insert_eq).
  unfold print at 1. cbn [fst snd].
  rewrite (exit_spec (obj_class o) l _ _ Ho'). cbn [obj_dict].
  rewrite lookup_insert_eq. reflexivity.
Qed.

(** X19: the two style demonstrations never take their [except]
    branches and never raise: each prints its title and the lines of
    its [try] blocks, and leaves one new instance for device 0 in the
    state, entered once. *)
Theorem style_demonstrations s out :
  let l := fresh (dom (heap s)) in
  let made c :=
    set_heap (<[l := {| obj_class := c;
                        obj_dict := <["device_id" := 0%Z]> ∅ |}]> (heap s)) s in
  let left c :=
    entered l {| obj_class := c; obj_dict := <["device_id" := 0%Z]> ∅ |} (made c) in
  demonstrate_pytorch_style (s, out)
  = (Ok tt,
     (left cls_device,
      (out ++ [newline +:+ "=== PyTorch-style API ===";
               "Operations inside rdna device context";
               "Cache emptied (PyTorch style)"])%list)) /\
  demonstrate_tensorflow_style (s, out)
  = (Ok tt,
     (left cls_tf_device,
      (out ++ [newline +:+ "=== TensorFlow-style API ===";
               "Operations inside TensorFlow RDNA device context";
               "Visible devices configured"])%list)).
Proof.
  intros l made left. split.
  - unfold demonstrate_pytorch_style, io_bind at 1 2 3, try_except, print at 1.
    cbn [fst snd]. unfold io_bind at 1, invoke at 1. cbn [fst snd].
    rewrite device_zero.
    rewrite (with_new_instance cls_device). cbn [fst snd].
    unfold invoke, print, empty_cache, ret. cbn [fst snd].
    rewrite <- !app_assoc. reflexivity.
  - unfold demonstrate_tensorflow_style, io_bind at 1 2, try_except at 1,
      print at 1.
    cbn [fst snd]. unfold io_bind at 1, invoke at 1. cbn [fst snd].
    rewrite tf_device_zero.
    rewrite (with_new_instance cls_tf_device). cbn [fst snd].
    unfold try_except, io_bind, invoke, print, config_set_visible_devices, ret.
    cbn [fst snd]. rewrite <- !app_assoc. reflexivity.
Qed.

End BasicUsageFacts.
